(** * tk-flame: the [CreateVersionPlugin] publish hook

    A shallow embedding of [hooks/tk-multi-publish2/create_version.py]
    and the properties of its Version metadata and of its Backburner
    job chain.

    Python values are an inductive type; dictionaries with string keys
    are [gmap string pyval]; floats are binary64 values of the Standard
    Library's [SpecFloat]; exceptions carry their kind and the source line
    of the statement that raised them.  The collaborators of the hook
    (Shotgun client, transcoder, Backburner engine) are a record of
    response functions, and every call to them is appended to a log. *)

From Stdlib Require Import ZArith String Ascii List Lia.
From Stdlib Require Import Floats.SpecFloat.
From stdpp Require Import gmap strings list fin_maps.

#[local] Open Scope string_scope.
#[local] Open Scope Z_scope.
#[local] Set Warnings "-register-all".

(** ** Python values *)

(** The values that flow through the hook.  Dictionary keys are always
    strings in this code ([item.properties], [assetInfo], [ver_data], the
    job arguments), so a dictionary is a finite map from strings. *)
Inductive pyval : Type :=
  | VNone : pyval
  | VBool : bool -> pyval
  | VInt : Z -> pyval
  | VFloat : spec_float -> pyval
  | VStr : string -> pyval
  | VList : list pyval -> pyval
  | VDict : gmap string pyval -> pyval.

Inductive exn_kind : Type :=
  | TypeError
  | ValueError
  | AttributeError
  | OverflowError
  | CollaboratorError.

(** An exception: its kind and the line of [create_version.py] whose
    statement raised it (for a collaborator, the line of the call). *)
Record exn : Type := Raise { kind : exn_kind; line : nat }.

Inductive result (A : Type) : Type :=
  | Ok : A -> result A
  | Err : exn -> result A.
Arguments Ok {A} _.
Arguments Err {A} _.

Definition rbind {A B} (r : result A) (k : A -> result B) : result B :=
  match r with
  | Ok a => k a
  | Err e => Err e
  end.

(** What a builtin or a collaborator answers: a value or an exception
    kind; the caller's line is attached by [at_line]. *)
Definition at_line {A} (l : nat) (r : exn_kind + A) : result A :=
  match r with
  | inr a => Ok a
  | inl k => Err (Raise k l)
  end.

#[global] Instance result_ret : MRet result := fun _ a => Ok a.
#[global] Instance result_bind : MBind result := fun _ _ k r => rbind r k.

(** ** binary64 floats *)

Definition prec : Z := 53.
Definition emax : Z := 1024.

(** The double nearest to an integer (round to nearest, ties to even);
    infinite when the integer is out of range. *)
Definition float_of_Z (z : Z) : spec_float := binary_normalize prec emax z 0 false.

Definition float_is_zero (f : spec_float) : bool :=
  match f with
  | S754_zero _ => true
  | _ => false
  end.

Definition float_is_inf (f : spec_float) : bool :=
  match f with
  | S754_infinity _ => true
  | _ => false
  end.

(** Truncation toward zero of a finite double. *)
Definition float_trunc (s : bool) (m : positive) (e : Z) : Z :=
  let mag := if 0 <=? e then Z.pos m * 2 ^ e else Z.pos m / 2 ^ (- e) in
  if s then - mag else mag.

(** ** Python builtins *)

(** The parts of the interpreter that are not modelled: parsing a number
    out of a string ([float(s)], [int(s)]) and [str(v)] of a non-string
    value, which [%s] formatting uses. *)
Record Builtins : Type := {
  float_of_str : string -> option spec_float;
  int_of_str : string -> option Z;
  py_str : pyval -> string
}.

(** [bool(v)]: the truth value of [v] in an [if]. *)
Definition truthy (v : pyval) : bool :=
  match v with
  | VNone => false
  | VBool b => b
  | VInt z => negb (z =? 0)
  | VFloat f => negb (float_is_zero f)
  | VStr s => negb (String.eqb s "")
  | VList l => match l with [] => false | _ => true end
  | VDict d => negb (Nat.eqb (size d) 0)
  end.

Definition int_to_float (z : Z) : exn_kind + spec_float :=
  let f := float_of_Z z in
  if float_is_inf f then inl OverflowError else inr f.

Section Builtin.
Context (B : Builtins).

(** [float(v)] *)
Definition py_float (v : pyval) : exn_kind + spec_float :=
  match v with
  | VFloat f => inr f
  | VInt z => int_to_float z
  | VBool b => inr (float_of_Z (if b then 1 else 0))
  | VStr s => match float_of_str B s with
              | Some f => inr f
              | None => inl ValueError
              end
  | VNone | VList _ | VDict _ => inl TypeError
  end.

(** [int(v)] *)
Definition py_int (v : pyval) : exn_kind + Z :=
  match v with
  | VInt z => inr z
  | VBool b => inr (if b then 1 else 0)
  | VFloat (S754_finite s m e) => inr (float_trunc s m e)
  | VFloat (S754_zero _) => inr 0
  | VFloat (S754_infinity _) => inl OverflowError
  | VFloat S754_nan => inl ValueError
  | VStr s => match int_of_str B s with
              | Some z => inr z
              | None => inl ValueError
              end
  | VNone | VList _ | VDict _ => inl TypeError
  end.

(** [%s] applied to one value: a string is copied, anything else goes
    through [str]. *)
Definition fmt_s (v : pyval) : string :=
  match v with
  | VStr s => s
  | _ => py_str B v
  end.
End Builtin.

(** A number as Python arithmetic sees it: [bool] is a subclass of [int]. *)
Inductive num : Type :=
  | NInt : Z -> num
  | NFloat : spec_float -> num.

Definition as_num (v : pyval) : option num :=
  match v with
  | VInt z => Some (NInt z)
  | VBool b => Some (NInt (if b then 1 else 0))
  | VFloat f => Some (NFloat f)
  | _ => None
  end.

(** [a - b] *)
Definition py_sub (a b : pyval) : exn_kind + pyval :=
  match as_num a, as_num b with
  | Some (NInt x), Some (NInt y) => inr (VInt (x - y))
  | Some (NFloat x), Some (NFloat y) => inr (VFloat (SFsub prec emax x y))
  | Some (NInt x), Some (NFloat y) =>
      match int_to_float x with
      | inr fx => inr (VFloat (SFsub prec emax fx y))
      | inl k => inl k
      end
  | Some (NFloat x), Some (NInt y) =>
      match int_to_float y with
      | inr fy => inr (VFloat (SFsub prec emax x fy))
      | inl k => inl k
      end
  | _, _ => inl TypeError
  end.

(** A method call [v.get(...)] on something that is not a dictionary
    raises [AttributeError]. *)
Definition as_dict (v : pyval) : exn_kind + gmap string pyval :=
  match v with
  | VDict d => inr d
  | _ => inl AttributeError
  end.

(** [os.fspath] and [re] accept strings only. *)
Definition as_str (v : pyval) : exn_kind + string :=
  match v with
  | VStr s => inr s
  | _ => inl TypeError
  end.

(** [d.get(k, default)] *)
Definition dict_get (d : gmap string pyval) (k : string) (default : pyval) : pyval :=
  match d !! k with
  | Some v => v
  | None => default
  end.

(** [k in d] *)
Definition dict_has (d : gmap string pyval) (k : string) : bool :=
  match d !! k with
  | Some _ => true
  | None => false
  end.

(** ** Strings *)

Module Str.
(** [s.rfind(c)]: the index of the last [c], or -1. *)
Fixpoint rfind (c : ascii) (s : string) : Z :=
  match s with
  | EmptyString => -1
  | String x s' =>
      let r := rfind c s' in
      if 0 <=? r then r + 1 else if Ascii.eqb x c then 0 else -1
  end.

(** [s[:n]] and [s[n:]] for [n >= 0]. *)
Fixpoint take (n : nat) (s : string) : string :=
  match n, s with
  | S n', String x s' => String x (take n' s')
  | _, _ => EmptyString
  end.

Fixpoint drop (n : nat) (s : string) : string :=
  match n, s with
  | S n', String _ s' => drop n' s'
  | _, _ => s
  end.

(** [s == c * len(s)] *)
Fixpoint all_char (c : ascii) (s : string) : bool :=
  match s with
  | EmptyString => true
  | String x s' => Ascii.eqb x c && all_char c s'
  end.

(** [s.rstrip(c)] *)
Fixpoint rstrip (c : ascii) (s : string) : string :=
  match s with
  | EmptyString => EmptyString
  | String x s' =>
      match rstrip c s' with
      | EmptyString => if Ascii.eqb x c then EmptyString else String x EmptyString
      | r => String x r
      end
  end.

Definition startswith (c : ascii) (s : string) : bool :=
  match s with
  | String x _ => Ascii.eqb x c
  | EmptyString => false
  end.

Fixpoint endswith (c : ascii) (s : string) : bool :=
  match s with
  | EmptyString => false
  | String x EmptyString => Ascii.eqb x c
  | String _ s' => endswith c s'
  end.

(** [s.split(c)[0]]: the text before the first [c], all of [s] when
    there is none. *)
Fixpoint split_first (c : ascii) (s : string) : string :=
  match s with
  | EmptyString => EmptyString
  | String x s' => if Ascii.eqb x c then EmptyString else String x (split_first c s')
  end.

Fixpoint drop_last (s : string) : string :=
  match s with
  | EmptyString => EmptyString
  | String _ EmptyString => EmptyString
  | String x s' => String x (drop_last s')
  end.

(** [s[1:-1]] *)
Definition slice_1_m1 (s : string) : string :=
  drop_last (drop 1 s).

Fixpoint contains (c : ascii) (s : string) : bool :=
  match s with
  | EmptyString => false
  | String x s' => Ascii.eqb x c || contains c s'
  end.
End Str.

(** ** [os.path] on a POSIX host *)

Module posixpath.
Definition sep : ascii := "/"%char.
Definition extsep : ascii := "."%char.

(** [os.path.split(p)]: cut after the last separator, and strip the
    separators that end the head unless the head is nothing else. *)
Definition split (p : string) : string * string :=
  let i := Z.to_nat (Str.rfind sep p + 1) in
  let head := Str.take i p in
  let tail := Str.drop i p in
  let head :=
    if negb (String.eqb head "") && negb (Str.all_char sep head)
    then Str.rstrip sep head else head in
  (head, tail).

Definition dirname (p : string) : string := fst (split p).
Definition basename (p : string) : string := snd (split p).

(** [os.path.join(a, b)] *)
Definition join (a b : string) : string :=
  if Str.startswith sep b then b
  else if String.eqb a "" || Str.endswith sep a then a ++ b
  else a ++ String sep b.

(** [os.path.splitext(p)]: the extension starts at the last dot of the
    last component, unless only dots come before it there.  The loop of
    [genericpath._splitext] looks for a character other than a dot
    between the last separator and the last dot. *)
Definition splitext (p : string) : string * string :=
  let sepIndex := Str.rfind sep p in
  let dotIndex := Str.rfind extsep p in
  if (sepIndex <? dotIndex)
     && negb (Str.all_char extsep
                (Str.take (Z.to_nat (dotIndex - (sepIndex + 1)))
                   (Str.drop (Z.to_nat (sepIndex + 1)) p)))
  then (Str.take (Z.to_nat dotIndex) p, Str.drop (Z.to_nat dotIndex) p)
  else (p, "").
End posixpath.

(** ** The regular expression of the frame range *)

Module Re.
(** The fragment of [re] that the pattern uses: a literal character, a
    greedy [+] over a character class, and the two ends of a capturing
    group. *)
Inductive atom : Type :=
  | Lit : ascii -> atom
  | Plus : (ascii -> bool) -> atom
  | GOpen : atom
  | GClose : atom.

(** A match is the text it consumed, with the group's ends marked. *)
Inductive tok : Type :=
  | Tc : ascii -> tok
  | Topen : tok
  | Tclose : tok.

(** Backtracking match of the atoms at the start of [s].  A [+] takes a
    character of its class and first tries to take more, then gives the
    rest of the pattern its turn. *)
Fixpoint match_here (p : list atom) : string -> option (list tok) :=
  match p with
  | [] => fun _ => Some []
  | Lit c :: p' => fun s =>
      match s with
      | String x s' =>
          if Ascii.eqb x c then cons (Tc x) <$> match_here p' s' else None
      | EmptyString => None
      end
  | Plus cls :: p' =>
      fix more (s : string) : option (list tok) :=
        match s with
        | String x s' =>
            if cls x then
              match more s' with
              | Some r => Some (Tc x :: r)
              | None => cons (Tc x) <$> match_here p' s'
              end
            else None
        | EmptyString => None
        end
  | GOpen :: p' => fun s => cons Topen <$> match_here p' s
  | GClose :: p' => fun s => cons Tclose <$> match_here p' s
  end.

(** [re.search]: the match at the leftmost position that has one. *)
Fixpoint search (p : list atom) (s : string) : option (list tok) :=
  match match_here p s with
  | Some r => Some r
  | None =>
      match s with
      | String _ s' => search p s'
      | EmptyString => None
      end
  end.

Fixpoint chars (r : list tok) : string :=
  match r with
  | [] => EmptyString
  | Tc c :: r' => String c (chars r')
  | _ :: r' => chars r'
  end.

Fixpoint until_close (r : list tok) : list tok :=
  match r with
  | [] => []
  | Tclose :: _ => []
  | t :: r' => t :: until_close r'
  end.

Fixpoint after_open (r : list tok) : list tok :=
  match r with
  | [] => []
  | Topen :: r' => r'
  | _ :: r' => after_open r'
  end.

(** [m.group(1)] of a pattern with one group. *)
Definition group1 (r : list tok) : string :=
  chars (until_close (after_open r)).

Definition is_digit (c : ascii) : bool :=
  let n := Ascii.nat_of_ascii c in
  (48 <=? n)%nat && (n <=? 57)%nat.

(** [r"(\[[0-9]+-[0-9]+\])\."] *)
Definition frame_range_re : list atom :=
  [GOpen; Lit "["; Plus is_digit; Lit "-"; Plus is_digit; Lit "]"; GClose;
   Lit "."]%char.
End Re.

(** ** The item, the collaborators and the log of their calls *)

Record Context : Type := {
  project : pyval;
  entity : pyval;
  task : pyval
}.

(** The publisher's item: what the hook reads of it.  Only the property
    bag is written to. *)
Record Item : Type := {
  name : pyval;
  description : pyval;
  context : Context;
  properties : gmap string pyval
}.

(** The keyword arguments of [engine.transcoder.transcode]. *)
Record TranscodeCall : Type := {
  t_src_path : pyval;
  t_dst_path : pyval;
  t_extension : pyval;
  t_display_name : pyval;
  t_job_context : string;
  t_preset_path : pyval;
  t_asset_info : pyval;
  t_dependencies : pyval;
  t_poster_frame : pyval
}.

(** The keyword arguments of [engine.create_local_backburner_job]. *)
Record JobCall : Type := {
  job_name : pyval;
  job_description : string;
  dependencies : pyval;
  instance : string;
  method_name : string;
  args : gmap string pyval
}.

Inductive Event : Type :=
  | SgCreate : string -> gmap string pyval -> Event
  | Transcode : TranscodeCall -> Event
  | BackburnerJob : JobCall -> Event.

(** The collaborators.  Each answer may depend on the calls made so far,
    and may be an exception. *)
Record Engine : Type := {
  sg_create : list Event -> string -> gmap string pyval -> exn_kind + pyval;
  transcode : list Event -> TranscodeCall -> exn_kind + (pyval * pyval * pyval);
  create_local_backburner_job : list Event -> JobCall -> exn_kind + pyval;
  sanitize_backburner_job_name : pyval -> string -> exn_kind + pyval;
  local_movies_preset_path : pyval
}.

(** ** State and exceptions *)

Record state : Type := {
  st_item : Item;
  st_log : list Event
}.

(** A statement: it may raise, and what it did before raising stays done. *)
Definition M (A : Type) : Type := state -> result A * state.

#[global] Instance M_ret : MRet M := fun _ a st => (Ok a, st).
#[global] Instance M_bind : MBind M := fun _ _ k c st =>
  match c st with
  | (Ok a, st') => k a st'
  | (Err e, st') => (Err e, st')
  end.

Definition lift {A} (r : result A) : M A := fun st => (r, st).

Definition get_item : M Item := fun st => (Ok (st_item st), st).

(** [item.properties[k] = v] *)
Definition props_set (k : string) (v : pyval) : M unit := fun st =>
  let it := st_item st in
  (Ok tt,
   {| st_item := {| name := name it; description := description it;
                    context := context it;
                    properties := <[k := v]> (properties it) |};
      st_log := st_log st |}).

(** [item.properties.get(k, default)] *)
Definition props_get (k : string) (default : pyval) : M pyval := fun st =>
  (Ok (dict_get (properties (st_item st)) k default), st).

Definition record (ev : Event) (st : state) : state :=
  {| st_item := st_item st; st_log := st_log st ++ [ev] |}.

Section Hook.
Context (B : Builtins) (E : Engine).

Definition call_sg_create (l : nat) (entity_type : string)
    (data : gmap string pyval) : M pyval := fun st =>
  (at_line l (sg_create E (st_log st) entity_type data),
   record (SgCreate entity_type data) st).

Definition call_transcode (l : nat) (c : TranscodeCall)
    : M (pyval * pyval * pyval) := fun st =>
  (at_line l (transcode E (st_log st) c), record (Transcode c) st).

Definition call_job (l : nat) (c : JobCall) : M pyval := fun st =>
  (at_line l (create_local_backburner_job E (st_log st) c),
   record (BackburnerJob c) st).

(** ** The Version metadata, lines 145 to 182 of [publish] *)

(** Lines 148 to 157. *)
Definition init_ver_data (it : Item) (path : pyval) : gmap string pyval :=
  <["sg_department" := VStr "Flame"]>
    (<["sg_path_to_frames" := path]>
       (<["sg_task" := task (context it)]>
          (<["entity" := entity (context it)]>
             (<["description" := description it]>
                (<["code" := name it]>
                   (<["project" := project (context it)]> ∅)))))).

(** Lines 161 to 163. *)
Definition set_frame_rate (asset_info ver_data : gmap string pyval)
    : result (gmap string pyval) :=
  let frame_rate := dict_get asset_info "fps" VNone in
  if truthy frame_rate then
    f ← at_line 163 (py_float B frame_rate);
    mret (<["sg_uploaded_movie_frame_rate" := VFloat f]> ver_data)
  else mret ver_data.

(** Lines 165 to 168: the test is on [asset_info], not on
    [aspect_ratio]. *)
Definition set_aspect_ratio (asset_info ver_data : gmap string pyval)
    : result (gmap string pyval) :=
  let aspect_ratio := dict_get asset_info "aspectRatio" VNone in
  if truthy (VDict asset_info) then
    f1 ← at_line 167 (py_float B aspect_ratio);
    let ver_data := <["sg_frames_aspect_ratio" := VFloat f1]> ver_data in
    f2 ← at_line 168 (py_float B aspect_ratio);
    mret (<["sg_movie_aspect_ratio" := VFloat f2]> ver_data)
  else mret ver_data.

(** Lines 175 to 177. *)
Definition set_frame_range (file_path : pyval) (ver_data : gmap string pyval)
    : result (gmap string pyval) :=
  s ← at_line 175 (as_str file_path);
  match Re.search Re.frame_range_re s with
  | Some re_match =>
      mret (<["frame_range" := VStr (Str.slice_1_m1 (Re.group1 re_match))]> ver_data)
  | None => mret ver_data
  end.

(** [d[k]] where [k in d] has just been tested. *)
Definition dict_item (d : gmap string pyval) (k : string) : pyval :=
  dict_get d k VNone.

(** Lines 179 to 182. *)
Definition set_frames (asset_info ver_data : gmap string pyval)
    : result (gmap string pyval) :=
  if dict_has asset_info "sourceIn" && dict_has asset_info "sourceOut" then
    let ver_data := <["sg_first_frame" := dict_item asset_info "sourceIn"]> ver_data in
    last ← at_line 181 (py_sub (dict_item asset_info "sourceOut") (VInt 1));
    let ver_data := <["sg_last_frame" := last]> ver_data in
    l ← at_line 182 (py_int B (dict_item ver_data "sg_last_frame"));
    f ← at_line 182 (py_int B (dict_item ver_data "sg_first_frame"));
    mret (<["frame_count" := VInt (l - f + 1)]> ver_data)
  else mret ver_data.

(** The local variables of [publish] when it reaches line 185. *)
Record Locals : Type := {
  path : pyval;
  asset_info : gmap string pyval;
  file_path : pyval;
  ver_data : gmap string pyval
}.

(** The Metadata Builder: [publish] up to the call of [sg.create]. *)
Definition build_ver_data (it : Item) : result Locals :=
  let path := dict_get (properties it) "path" VNone in
  let ver_data := init_ver_data it path in
  asset_info ← at_line 161
    (as_dict (dict_get (properties it) "assetInfo" (VDict ∅)));
  ver_data ← set_frame_rate asset_info ver_data;
  ver_data ← set_aspect_ratio asset_info ver_data;
  let file_path := dict_get (properties it) "file_path" path in
  ver_data ← set_frame_range file_path ver_data;
  ver_data ← set_frames asset_info ver_data;
  mret {| path := path; asset_info := asset_info; file_path := file_path;
          ver_data := ver_data |}.

(** ** The job chain *)

(** [generate_quicktime], lines 283 to 336. *)
Definition generate_quicktime
    (src_path dst_path display_name target_entities asset_info
       dependencies : pyval) : M pyval :=
  d ← lift (at_line 305 (as_str dst_path));
  '(dst_path, job_id, files_to_delete) ← call_transcode 302
    {| t_src_path := src_path;
       t_dst_path := dst_path;
       t_extension := VStr (snd (posixpath.splitext d));
       t_display_name := display_name;
       t_job_context := "Create Shotgun Local Movie";
       t_preset_path := local_movies_preset_path E;
       t_asset_info := asset_info;
       t_dependencies := dependencies;
       t_poster_frame := VNone |};
  _ ← call_job 315
    {| job_name :=
         VStr (fmt_s B display_name ++ " - Updating Shotgun Path to movie");
       job_description :=
         "Uploading Shotgun Path to movie to " ++ fmt_s B dst_path;
       dependencies := job_id;
       instance := "backburner_hooks";
       method_name := "update_path_to_movie";
       args :=
         <["files_to_delete" := files_to_delete]>
           (<["path" := dst_path]>
              (<["targets" := target_entities]> ∅)) |};
  let quicktime_job : gmap string pyval :=
    <["files_to_delete" := files_to_delete]>
      (<["path" := dst_path]>
         (<["target_entities" := target_entities]>
            (<["dependencies" := job_id]>
               (<["display_name" := display_name]> ∅)))) in
  mret (VDict quicktime_job).

(** [publish], lines 136 to 215. *)
Definition publish (settings : pyval) : M unit :=
  it ← get_item;
  l ← lift (build_ver_data it);
  version ← call_sg_create 185 "Version" (ver_data l);
  _ ← props_set "Version" version;
  dependencies ← props_get "backgroundJobId" VNone;
  p ← lift (at_line 201 (as_str (path l)));
  let quicktime_name :=
    Str.split_first "." (snd (posixpath.split p)) ++ ".mov" in
  let quicktime_path :=
    posixpath.join (posixpath.dirname p) quicktime_name in
  quicktime_job ← generate_quicktime
    (file_path l) (VStr quicktime_path) (VStr quicktime_name)
    (VList [version]) (VDict (asset_info l)) dependencies;
  _ ← props_set "quicktime_name" (VStr quicktime_name);
  _ ← props_set "quicktime_path" (VStr quicktime_path);
  props_set "quicktime_job" quicktime_job.

Definition newline : string := String (ascii_of_nat 10) EmptyString.

(** [_upload_quicktime_job], lines 220 to 257. *)
Definition _upload_quicktime_job (quicktime_job : pyval) : M pyval :=
  let field_name := "sg_uploaded_movie" in
  let job_context := "Move and Upload Flame Quicktime" in
  q ← lift (at_line 235 (as_dict quicktime_job));
  job_name ← lift (at_line 234
    (sanitize_backburner_job_name E (dict_get q "display_name" VNone)
       (" - " ++ job_context)));
  let job_description :=
    job_context ++ " for " ++ fmt_s B (dict_get q "display_name" VNone)
      ++ newline ++ " " ++ fmt_s B (dict_get q "path" VNone) in
  call_job 244
    {| job_name := job_name;
       job_description := job_description;
       dependencies := dict_get q "dependencies" VNone;
       instance := "backburner_hooks";
       method_name := "copy_from_temp_and_upload_to_shotgun";
       args :=
         <["files_to_delete" := dict_get q "files_to_delete" VNone]>
           (<["display_name" := dict_get q "display_name" VNone]>
              (<["field_name" := VStr field_name]>
                 (<["path" := dict_get q "path" VNone]>
                    (<["targets" := dict_get q "target_entities" VNone]> ∅)))) |}.

(** [finalize], lines 262 to 278. *)
Definition finalize (settings : pyval) : M pyval :=
  quicktime_job ← props_get "quicktime_job" VNone;
  if truthy quicktime_job then _upload_quicktime_job quicktime_job
  else mret VNone.

(** [accept] and [validate], lines 92 to 134. *)
Definition accept (settings : pyval) (it : Item) : gmap string pyval :=
  <["accepted" := VBool true]> ∅.

Definition validate (settings : pyval) (it : Item) : bool := true.
End Hook.

(** ** Concrete collaborators and items *)

Module Fixture.
(** No string parses as a number; [str] is not looked at. *)
Definition B0 : Builtins :=
  {| float_of_str := fun _ => None;
     int_of_str := fun _ => None;
     py_str := fun _ => "" |}.

(** A record store and a job queue that number what they hand out by
    the calls already made: the n-th call returns the id [100 + n]. *)
Definition next_id (history : list Event) : pyval :=
  VInt (100 + Z.of_nat (length history)).

Definition E0 : Engine :=
  {| sg_create := fun history entity_type _ =>
       inr (VDict (<["id" := next_id history]>
                     (<["type" := VStr entity_type]> ∅)));
     transcode := fun history c =>
       inr (t_dst_path c, next_id history, VList [VStr "/tmp/shot010.tmp"]);
     create_local_backburner_job := fun history _ => inr (next_id history);
     sanitize_backburner_job_name := fun n suffix =>
       match n with
       | VStr s => inr (VStr (s ++ suffix))
       | _ => inl TypeError
       end;
     local_movies_preset_path := VStr "/presets/movie.xml" |}.

Definition ctx0 : Context :=
  {| project := VInt 1; entity := VInt 2; task := VInt 3 |}.

Definition item_with (props : gmap string pyval) : Item :=
  {| name := VStr "shot010"; description := VStr "first pass";
     context := ctx0; properties := props |}.

(** 24.0 and 1.78 as doubles. *)
Definition f24 : spec_float := S754_finite false 6755399441055744 (-48).
Definition f1_78 : spec_float := S754_finite false 8016407336719483 (-52).

Definition seq_path : pyval := VStr "/jobs/sh/shot010.%04d.exr".
Definition seq_file_path : pyval := VStr "/jobs/sh/shot010.[1001-1050].exr".

Definition props_of (asset : gmap string pyval) : gmap string pyval :=
  <["assetInfo" := VDict asset]>
    (<["file_path" := seq_file_path]> (<["path" := seq_path]> ∅)).

Definition start (it : Item) : state := {| st_item := it; st_log := [] |}.
End Fixture.


(** ** What the properties are stated with *)

(** The name and the destination of the movie, lines 201 and 202. *)
Definition quicktime_name_of (p : string) : string :=
  Str.split_first "." (snd (posixpath.split p)) ++ ".mov".

Definition quicktime_path_of (p : string) : string :=
  posixpath.join (posixpath.dirname p) (quicktime_name_of p).

(** The head of [os.path.split]: trailing separators go, unless the head
    is made of separators only. *)
Definition norm_head (h : string) : string :=
  if negb (String.eqb h "") && negb (Str.all_char posixpath.sep h)
  then Str.rstrip posixpath.sep h else h.

(** The name of the movie as the specification words it: the basename of
    [path] without its extension, then [.mov]. *)
Definition spec_quicktime_name (p : string) : string :=
  fst (posixpath.splitext (posixpath.basename p)) ++ ".mov".

Definition names_movie_by_extension (log : list Event) (p : string) : Prop :=
  forall c, In (Transcode c) log ->
    t_display_name c = VStr (spec_quicktime_name p).

(** The three jobs of a run as the log shows them, with the ids that the
    transcoder and the job queue gave to the first two. *)
Record Chain : Type := {
  job1_id : pyval;
  job2 : JobCall;
  job2_id : pyval;
  job3 : JobCall
}.

(** Between [log0] and [log] there were exactly one record creation, one
    transcode request and two Backburner jobs, in that order. *)
Definition chain_of_run (E : Engine) (log0 log : list Event) (ch : Chain) : Prop :=
  exists data c dst files,
    log = (log0 ++ [SgCreate "Version" data; Transcode c;
                    BackburnerJob (job2 ch); BackburnerJob (job3 ch)])%list /\
    transcode E (log0 ++ [SgCreate "Version" data])%list c
      = inr (dst, job1_id ch, files) /\
    create_local_backburner_job E
      (log0 ++ [SgCreate "Version" data; Transcode c])%list (job2 ch)
      = inr (job2_id ch).

(** The chain as the specification words it: job 2 waits for job 1, and
    job 3 waits for job 2. *)
Definition linear_chain (E : Engine) (log0 log : list Event) : Prop :=
  exists ch,
    chain_of_run E log0 log ch /\
    dependencies (job2 ch) = job1_id ch /\
    dependencies (job3 ch) = job2_id ch.

(** The chain as the code declares it: job 2 and job 3 both wait for
    job 1. *)
Definition forked_chain (E : Engine) (log0 log : list Event) : Prop :=
  exists ch,
    chain_of_run E log0 log ch /\
    dependencies (job2 ch) = job1_id ch /\
    dependencies (job3 ch) = job1_id ch.

(** The builder has set both aspect fields to [float(aspectRatio)]. *)
Definition sets_aspect_fields (B : Builtins) (it : Item)
    (a : gmap string pyval) : Prop :=
  exists l f,
    build_ver_data B it = Ok l /\
    py_float B (dict_get a "aspectRatio" VNone) = inr f /\
    ver_data l !! "sg_frames_aspect_ratio" = Some (VFloat f) /\
    ver_data l !! "sg_movie_aspect_ratio" = Some (VFloat f).

(** *** The frame range token *)

Fixpoint all_in (cls : ascii -> bool) (s : string) : bool :=
  match s with
  | EmptyString => true
  | String x s' => cls x && all_in cls s'
  end.

(** A number as the pattern reads it: one decimal digit or more. *)
Definition is_number (s : string) : Prop :=
  s ≠ "" /\ all_in Re.is_digit s = true.

(** [[<int>-<int>]] *)
Definition range_token (d1 d2 : string) : string :=
  "[" ++ d1 ++ "-" ++ d2 ++ "]".

(** [s] begins with a token [[d1-d2]] and a dot. *)
Definition token_prefix (s d1 d2 rest : string) : Prop :=
  s = range_token d1 d2 ++ "." ++ rest /\ is_number d1 /\ is_number d2.

Definition starts_with_token (s : string) : Prop :=
  exists d1 d2 rest, token_prefix s d1 d2 rest.

Fixpoint toks (s : string) : list Re.tok :=
  match s with
  | EmptyString => []
  | String x s' => Re.Tc x :: toks s'
  end.

Definition token_toks (d1 d2 : string) : list Re.tok :=
  ([Re.Topen; Re.Tc "["] ++ toks d1 ++ [Re.Tc "-"] ++ toks d2
     ++ [Re.Tc "]"; Re.Tclose; Re.Tc "."])%list%char.

(** *** Concrete runs and items *)

Module Run.
Definition item0 : Item :=
  Fixture.item_with
    (Fixture.props_of
       (<["aspectRatio" := VFloat Fixture.f1_78]>
          (<["fps" := VFloat Fixture.f24]> ∅))).

Definition st0 : state := Fixture.start item0.
Definition st1 : state := snd (publish Fixture.B0 Fixture.E0 VNone st0).
Definition st2 : state := snd (finalize Fixture.B0 Fixture.E0 VNone st1).

End Run.

Module AspectItem.
Definition asset_178 : gmap string pyval :=
  {[ "aspectRatio" := VFloat Fixture.f1_78 ]}.

Definition item_178 : Item := Fixture.item_with (Fixture.props_of asset_178).

Definition locals_178 : Locals :=
  {| path := Fixture.seq_path;
     asset_info := asset_178;
     file_path := Fixture.seq_file_path;
     ver_data :=
       <["frame_range" := VStr "1001-1050"]>
         (<["sg_movie_aspect_ratio" := VFloat Fixture.f1_78]>
            (<["sg_frames_aspect_ratio" := VFloat Fixture.f1_78]>
               (init_ver_data item_178 Fixture.seq_path))) |}.
End AspectItem.

Module RateItem.
Definition asset : gmap string pyval :=
  <["fps" := VFloat Fixture.f24]> AspectItem.asset_178.

Definition item9 : Item := Fixture.item_with (Fixture.props_of asset).
End RateItem.

Module FramesItem.
Definition asset : gmap string pyval :=
  <["sourceOut" := VInt 1051]> (<["sourceIn" := VInt 1001]> AspectItem.asset_178).

Definition item5 : Item := Fixture.item_with (Fixture.props_of asset).
End FramesItem.

Module NoPathItem.
Definition item10 : Item :=
  Fixture.item_with (<["assetInfo" := VDict RateItem.asset]> ∅).
End NoPathItem.

Module RangeItem.
Definition item4 : Item :=
  Fixture.item_with
    (<["file_path" := VStr "shot010.[1001-1050].exr"]>
       (<["path" := VStr "shot010.%04d.exr"]> ∅)).

End RangeItem.

(** *** The keys that the hook writes *)

(** The fields that lines 148 to 182 can put in [ver_data]. *)
Definition ver_data_keys : list string :=
  ["project"; "code"; "description"; "entity"; "sg_task"; "sg_path_to_frames";
   "sg_department"; "sg_uploaded_movie_frame_rate"; "sg_frames_aspect_ratio";
   "sg_movie_aspect_ratio"; "frame_range"; "sg_first_frame"; "sg_last_frame";
   "frame_count"].

(** The lines of the builder that hold a call or an operation that can
    raise. *)
Definition builder_raise_lines : list nat :=
  [161; 163; 167; 175; 181; 182]%nat.

(** An item with a file path and nothing else. *)
Module FileOnlyItem.
Definition item : Item :=
  Fixture.item_with (<["file_path" := Fixture.seq_file_path]> ∅).
End FileOnlyItem.

Module BadRateItem.
Definition item : Item :=
  Fixture.item_with (Fixture.props_of {[ "fps" := VList [VInt 24] ]}).
End BadRateItem.

(** Two tokens in one file path. *)
Module TwoTokensItem.
Definition item : Item :=
  Fixture.item_with
    (<["file_path" := VStr "sh010.[1-5].v2.[7-9].exr"]>
       (<["path" := VStr "sh010.%d.v2.[7-9].exr"]> ∅)).
End TwoTokensItem.

(** A source range whose end is no number. *)
Module BadFramesItem.
Definition asset : gmap string pyval :=
  <["sourceOut" := VStr "1051"]>
    (<["sourceIn" := VInt 1001]> AspectItem.asset_178).

Definition item : Item := Fixture.item_with (Fixture.props_of asset).
End BadFramesItem.

(** The calls that one [publish] can leave in the log: a beginning of
    record creation, transcode request, Backburner job. *)
Definition publish_calls (tail : list Event) : Prop :=
  tail = [] \/
  (exists d, tail = [SgCreate "Version" d]) \/
  (exists d c, tail = [SgCreate "Version" d; Transcode c]) \/
  (exists d c j, tail = [SgCreate "Version" d; Transcode c; BackburnerJob j]).

(** A transcoder that refuses every request. *)
Module FailingTranscoder.
Definition E1 : Engine :=
  {| sg_create := sg_create Fixture.E0;
     transcode := fun _ _ => inl CollaboratorError;
     create_local_backburner_job := create_local_backburner_job Fixture.E0;
     sanitize_backburner_job_name := sanitize_backburner_job_name Fixture.E0;
     local_movies_preset_path := local_movies_preset_path Fixture.E0 |}.

Definition st1 : state := snd (publish Fixture.B0 E1 VNone Run.st0).
End FailingTranscoder.

(** A transcoder that writes somewhere else than asked. *)
Module MovingTranscoder.
Definition E2 : Engine :=
  {| sg_create := sg_create Fixture.E0;
     transcode := fun history _ =>
       inr (VStr "/staging/shot010.mov", Fixture.next_id history, VList []);
     create_local_backburner_job := create_local_backburner_job Fixture.E0;
     sanitize_backburner_job_name := sanitize_backburner_job_name Fixture.E0;
     local_movies_preset_path := local_movies_preset_path Fixture.E0 |}.

Definition st1 : state := snd (publish Fixture.B0 E2 VNone Run.st0).
Definition st2 : state := snd (finalize Fixture.B0 E2 VNone st1).
Definition st3 : state := snd (finalize Fixture.B0 E2 VNone st2).
End MovingTranscoder.

(** A record store that refuses. *)
Module FailingStore.
Definition E3 : Engine :=
  {| sg_create := fun _ _ _ => inl CollaboratorError;
     transcode := transcode Fixture.E0;
     create_local_backburner_job := create_local_backburner_job Fixture.E0;
     sanitize_backburner_job_name := sanitize_backburner_job_name Fixture.E0;
     local_movies_preset_path := local_movies_preset_path Fixture.E0 |}.
End FailingStore.

(** Items on which something else than a descriptor sits under
    ["quicktime_job"]. *)
Module OddDescriptor.
Definition empty_item : Item :=
  Fixture.item_with (<["quicktime_job" := VDict ∅]> ∅).

Definition text_item : Item :=
  Fixture.item_with (<["quicktime_job" := VStr "done"]> ∅).
End OddDescriptor.

(** An item whose file name begins with a dot. *)
Module HiddenItem.
Definition item : Item :=
  Fixture.item_with (<["path" := VStr "/jobs/sh/.cache.exr"]> ∅).

Definition st1 : state :=
  snd (publish Fixture.B0 Fixture.E0 VNone (Fixture.start item)).
End HiddenItem.

(** The same item published a second time. *)
Module Republish.
Definition st2 : state := snd (publish Fixture.B0 Fixture.E0 VNone Run.st1).
End Republish.

(** An [assetInfo] with a source range and nothing else, and one with a
    rate and nothing else. *)
Module FramesOnlyItem.
Definition asset : gmap string pyval :=
  <["sourceOut" := VInt 1051]> (<["sourceIn" := VInt 1001]> ∅).

Definition item : Item := Fixture.item_with (Fixture.props_of asset).
End FramesOnlyItem.

Module RateOnlyItem.
Definition asset : gmap string pyval := {[ "fps" := VFloat Fixture.f24 ]}.

Definition item : Item := Fixture.item_with (Fixture.props_of asset).
End RateOnlyItem.

(** Items without a path whose [assetInfo] stops the builder before the
    frame range: [None], and a rate that is a list. *)
Module NoPathOddItem.
Definition none_item : Item :=
  Fixture.item_with (<["assetInfo" := VNone]> ∅).

Definition list_item : Item :=
  Fixture.item_with
    (<["assetInfo" :=
         VDict (<["fps" := VList [VInt 24]]> AspectItem.asset_178)]> ∅).
End NoPathOddItem.

(** [publish] ends with the [TypeError] of the frame-range search, as the
    specification words it for an item without a path. *)
Definition raises_type_error_at_frame_range
    (B : Builtins) (E : Engine) (settings : pyval) (st : state) : Prop :=
  exists st', publish B E settings st = (Err (Raise TypeError 175), st').

(** * Properties *)

(** ** The models of [os.path] and [re] on examples *)

Example ex_search_1 :
  Re.group1 <$> Re.search Re.frame_range_re "shot010.[1001-1050].exr" = Some "[1001-1050]".
Proof. reflexivity. Qed.
Example ex_search_2 :
  Re.group1 <$> Re.search Re.frame_range_re "a[1-2]b.[10-20].[3-4].exr" = Some "[10-20]".
Proof. reflexivity. Qed.
Example ex_search_3 :
  Re.search Re.frame_range_re "shot010.%04d.exr" = None.
Proof. reflexivity. Qed.
Example ex_split_1 : posixpath.split "/a/b/shot010.%04d.exr" = ("/a/b", "shot010.%04d.exr").
Proof. reflexivity. Qed.
Example ex_split_2 : posixpath.split "//x.exr" = ("//", "x.exr").
Proof. reflexivity. Qed.
Example ex_split_3 : posixpath.split "/a//" = ("/a", "").
Proof. reflexivity. Qed.
Example ex_splitext_1 : posixpath.splitext "/a.b/..x.tar.gz" = ("/a.b/..x.tar", ".gz").
Proof. reflexivity. Qed.
Example ex_splitext_2 : posixpath.splitext "/a.b/...gz" = ("/a.b/...gz", "").
Proof. reflexivity. Qed.
Example ex_splitext_3 : posixpath.splitext "/a.b/c" = ("/a.b/c", "").
Proof. reflexivity. Qed.

(** ** Running the monad *)

Lemma bind_ok {A C} (c : M A) (k : A -> M C) st a st' :
  c st = (Ok a, st') -> (c ≫= k) st = k a st'.
Proof. intros H. unfold mbind, M_bind. now rewrite H. Qed.

Lemma bind_err {A C} (c : M A) (k : A -> M C) st e st' :
  c st = (Err e, st') -> (c ≫= k) st = (Err e, st').
Proof. intros H. unfold mbind, M_bind. now rewrite H. Qed.

Lemma bind_inv {A C} (c : M A) (k : A -> M C) st r st' :
  (c ≫= k) st = (Ok r, st') ->
  exists a st1, c st = (Ok a, st1) /\ k a st1 = (Ok r, st').
Proof.
  unfold mbind, M_bind. destruct (c st) as [[a|e] st1]; intros H.
  - eauto.
  - discriminate.
Qed.

Lemma rbind_inv {A C} (r : result A) (k : A -> result C) c :
  (r ≫= k) = Ok c -> exists a, r = Ok a /\ k a = Ok c.
Proof.
  unfold mbind, result_bind, rbind. destruct r as [a|e]; intros H.
  - eauto.
  - discriminate.
Qed.

Lemma at_line_ok {A} l (r : exn_kind + A) a :
  at_line l r = Ok a <-> r = inr a.
Proof.
  destruct r as [k|x]; simpl; split; intros H; try discriminate; congruence.
Qed.

Lemma lift_inv {A} (r : result A) st a st' :
  lift r st = (Ok a, st') -> r = Ok a /\ st' = st.
Proof. unfold lift. intros H. now inversion H. Qed.

(** ** The job chain *)

Section Chain.
Context (B : Builtins) (E : Engine).

(** What [generate_quicktime] does when it returns: one transcode
    request, one Backburner job that waits for it, and a descriptor
    built from the transcoder's answer. *)
Lemma generate_quicktime_inv src dst display targets info deps st r st' :
  generate_quicktime B E src dst display targets info deps st = (Ok r, st') ->
  exists c j p job_id files q,
    st_item st' = st_item st /\
    st_log st' = (st_log st ++ [Transcode c; BackburnerJob j])%list /\
    transcode E (st_log st) c = inr (p, job_id, files) /\
    (exists id2,
       create_local_backburner_job E (st_log st ++ [Transcode c])%list j
       = inr id2) /\
    t_src_path c = src /\ t_dst_path c = dst /\ t_display_name c = display /\
    t_dependencies c = deps /\
    dependencies j = job_id /\
    method_name j = "update_path_to_movie" /\
    r = VDict q /\
    q !! "display_name" = Some display /\
    q !! "dependencies" = Some job_id /\
    q !! "target_entities" = Some targets /\
    q !! "path" = Some p /\
    q !! "files_to_delete" = Some files.
Proof.
  unfold generate_quicktime. intros H.
  apply bind_inv in H as (d & s1 & H1 & H).
  apply lift_inv in H1 as [_ ->].
  apply bind_inv in H as ([[p job_id] files] & s2 & H2 & H).
  unfold call_transcode in H2. inversion H2 as [[Ht Hs2]]; clear H2.
  apply at_line_ok in Ht.
  apply bind_inv in H as (jid & s3 & H3 & H).
  unfold call_job in H3. inversion H3 as [[Hj Hs3]]; clear H3.
  apply at_line_ok in Hj.
  unfold mret, M_ret in H. inversion H; subst; clear H.
  eexists _, _, p, job_id, files, _.
  split; [reflexivity|]. split.
  { simpl. rewrite <- app_assoc. reflexivity. }
  split; [exact Ht|].
  split; [exists jid; exact Hj|].
  repeat (split; [reflexivity|]).
  repeat split; by simplify_map_eq.
Qed.
End Chain.

(** C7. Whenever the Job Chain Builder [generate_quicktime] returns, what
    it returns is a dictionary whose [dependencies] is the job id that the
    transcode call returned (job 1), whose [path] is the destination path
    that the transcode call returned, whose [target_entities] is the list
    given by the caller and whose [files_to_delete] is the list returned by
    the transcode call. *)
Theorem generate_quicktime_descriptor
    (B : Builtins) (E : Engine)
    (src dst display targets info deps : pyval) (st st' : state) (r : pyval) :
  generate_quicktime B E src dst display targets info deps st = (Ok r, st') ->
  exists c p job_id files q,
    In (Transcode c) (st_log st') /\
    transcode E (st_log st) c = inr (p, job_id, files) /\
    r = VDict q /\
    q !! "dependencies" = Some job_id /\
    q !! "path" = Some p /\
    q !! "target_entities" = Some targets /\
    q !! "files_to_delete" = Some files.
Proof.
  intros H.
  apply generate_quicktime_inv in H
    as (c & j & p & job_id & files & q & _ & Hlog & Ht & _ & _ & _ & _ & _ & _
        & _ & -> & _ & Hd & Hte & Hp & Hf).
  exists c, p, job_id, files, q.
  split.
  { rewrite Hlog. apply in_or_app. right. now left. }
  repeat split; assumption.
Qed.

(** The descriptor of a concrete run: transcoding to [/jobs/sh/shot010.mov]
    on a queue that has seen no call yet. *)
Lemma generate_quicktime_descriptor_witness :
  exists r st',
    generate_quicktime Fixture.B0 Fixture.E0
      Fixture.seq_file_path (VStr "/jobs/sh/shot010.mov") (VStr "shot010.mov")
      (VList [VInt 7]) (VDict ∅) VNone (Fixture.start (Fixture.item_with ∅))
    = (Ok r, st') /\
    exists c p job_id files q,
      In (Transcode c) (st_log st') /\
      transcode Fixture.E0 [] c = inr (p, job_id, files) /\
      r = VDict q /\
      q !! "dependencies" = Some job_id /\
      q !! "path" = Some p /\
      q !! "target_entities" = Some (VList [VInt 7]) /\
      q !! "files_to_delete" = Some files.
Proof.
  eexists _, _. split.
  - vm_compute. reflexivity.
  - apply (generate_quicktime_descriptor Fixture.B0 Fixture.E0
             Fixture.seq_file_path (VStr "/jobs/sh/shot010.mov")
             (VStr "shot010.mov") (VList [VInt 7]) (VDict ∅) VNone
             (Fixture.start (Fixture.item_with ∅))).
    vm_compute. reflexivity.
Defined.

(** C6. When the property bag of the item holds no ["quicktime_job"],
    [finalize] returns [None], submits no job and leaves the item as it
    is. *)
Theorem finalize_without_descriptor
    (B : Builtins) (E : Engine) (settings : pyval) (st : state) :
  properties (st_item st) !! "quicktime_job" = None ->
  finalize B E settings st = (Ok VNone, st).
Proof.
  intros H. unfold finalize.
  rewrite (bind_ok _ _ st VNone st).
  - reflexivity.
  - unfold props_get, dict_get. now rewrite H.
Qed.

Lemma finalize_without_descriptor_witness :
  finalize Fixture.B0 Fixture.E0 VNone (Fixture.start (Fixture.item_with ∅))
  = (Ok VNone, Fixture.start (Fixture.item_with ∅)).
Proof.
  apply (finalize_without_descriptor Fixture.B0 Fixture.E0 VNone
           (Fixture.start (Fixture.item_with ∅))).
  reflexivity.
Defined.

Lemma truthy_dict_lookup (d : gmap string pyval) k v :
  d !! k = Some v -> truthy (VDict d) = true.
Proof.
  intros H. simpl. destruct (size d) eqn:Hs; [|reflexivity].
  apply map_size_empty_inv in Hs. subst d. now rewrite lookup_empty in H.
Qed.

Lemma truthy_dict_empty : truthy (VDict ∅) = false.
Proof. reflexivity. Qed.

Lemma truthy_dict_nonempty (d : gmap string pyval) :
  truthy (VDict d) = true <-> d ≠ ∅.
Proof.
  simpl. split.
  - intros H ->. now rewrite map_size_empty in H.
  - intros H. destruct (size d) eqn:Hs; [|reflexivity].
    now apply map_size_empty_inv in Hs.
Qed.

Section Lifecycle.
Context (B : Builtins) (E : Engine).

(** A successful [publish], step by step. *)
Lemma publish_inv settings st st1 :
  publish B E settings st = (Ok tt, st1) ->
  exists l version p c j job_id dst files q,
    build_ver_data B (st_item st) = Ok l /\
    sg_create E (st_log st) "Version" (ver_data l) = inr version /\
    path l = VStr p /\
    st_log st1 =
      (st_log st ++ [SgCreate "Version" (ver_data l); Transcode c;
                     BackburnerJob j])%list /\
    transcode E (st_log st ++ [SgCreate "Version" (ver_data l)])%list c
      = inr (dst, job_id, files) /\
    (exists id2,
       create_local_backburner_job E
         (st_log st ++ [SgCreate "Version" (ver_data l); Transcode c])%list j
       = inr id2) /\
    t_src_path c = file_path l /\
    t_dst_path c = VStr (quicktime_path_of p) /\
    t_display_name c = VStr (quicktime_name_of p) /\
    t_dependencies c =
      dict_get (properties (st_item st)) "backgroundJobId" VNone /\
    dependencies j = job_id /\
    method_name j = "update_path_to_movie" /\
    properties (st_item st1) !! "quicktime_job" = Some (VDict q) /\
    properties (st_item st1) !! "Version" = Some version /\
    q !! "dependencies" = Some job_id /\
    q !! "path" = Some dst /\
    q !! "target_entities" = Some (VList [version]) /\
    q !! "files_to_delete" = Some files.
Proof.
  unfold publish. intros H.
  apply bind_inv in H as (it & s0 & H0 & H).
  unfold get_item in H0. inversion H0; subst it s0; clear H0.
  apply bind_inv in H as (l & s1 & H1 & H).
  apply lift_inv in H1 as [Hl ->].
  apply bind_inv in H as (version & s2 & H2 & H).
  unfold call_sg_create in H2. inversion H2 as [[Hv Hs2]]; clear H2.
  apply at_line_ok in Hv.
  apply bind_inv in H as ([] & s3 & H3 & H).
  unfold props_set in H3. inversion H3 as [Hs3]; clear H3.
  apply bind_inv in H as (deps & s4 & H4 & H).
  unfold props_get in H4. inversion H4 as [[Hdeps Hs4]]; clear H4.
  apply bind_inv in H as (p & s5 & H5 & H).
  apply lift_inv in H5 as [Hp ->].
  apply at_line_ok in Hp.
  destruct (path l) as [| | | |ps| |] eqn:Hpath; simpl in Hp; try discriminate.
  inversion Hp; subst p; clear Hp.
  apply bind_inv in H as (qj & s6 & H6 & H).
  apply generate_quicktime_inv in H6
    as (c & j & dst & job_id & files & q & Hit & Hlog & Ht & [id2 Hid2]
        & Hsrc & Hdst & Hname & Hdep & Hj & Hm & -> & _ & Hqd & Hqt & Hqp
        & Hqf).
  apply bind_inv in H as ([] & s7 & H7 & H).
  unfold props_set in H7. inversion H7 as [Hs7]; clear H7.
  apply bind_inv in H as ([] & s8 & H8 & H).
  unfold props_set in H8. inversion H8 as [Hs8]; clear H8.
  unfold props_set in H. inversion H as [Hs9]; clear H.
  exists l, version, ps, c, j, job_id, dst, files, q.
  subst s4 s3 s2. simpl in *.
  split; [exact Hl|]. split; [exact Hv|]. split; [exact Hpath|].
  split.
  { subst s8 s7. simpl. rewrite Hlog. simpl.
    rewrite <- app_assoc. reflexivity. }
  split; [exact Ht|].
  split.
  { exists id2. simpl in Hid2. rewrite <- app_assoc in Hid2. exact Hid2. }
  split; [exact Hsrc|]. split; [exact Hdst|].
  split; [exact Hname|]. split.
  { rewrite Hdep, <- Hdeps. unfold dict_get. simpl.
    now rewrite lookup_insert_ne by discriminate. }
  split; [exact Hj|]. split; [exact Hm|].
  split.
  { apply lookup_insert_eq. }
  split.
  { subst s8 s7. simpl. rewrite Hit. simpl.
    rewrite !lookup_insert_ne by discriminate. apply lookup_insert_eq. }
  auto.
Qed.

(** A call of [_upload_quicktime_job] that returns has submitted one
    job, which waits for the descriptor's [dependencies]. *)
Lemma upload_quicktime_job_inv (q : gmap string pyval) st r st' :
  _upload_quicktime_job B E (VDict q) st = (Ok r, st') ->
  exists j,
    st_item st' = st_item st /\
    st_log st' = (st_log st ++ [BackburnerJob j])%list /\
    create_local_backburner_job E (st_log st) j = inr r /\
    dependencies j = dict_get q "dependencies" VNone /\
    method_name j = "copy_from_temp_and_upload_to_shotgun" /\
    args j !! "targets" = Some (dict_get q "target_entities" VNone) /\
    args j !! "path" = Some (dict_get q "path" VNone) /\
    args j !! "field_name" = Some (VStr "sg_uploaded_movie").
Proof.
  unfold _upload_quicktime_job. intros H.
  apply bind_inv in H as (q' & s1 & H1 & H).
  apply lift_inv in H1 as [Hq ->]. simpl in Hq. inversion Hq; subst q'.
  apply bind_inv in H as (jn & s2 & H2 & H).
  apply lift_inv in H2 as [_ ->].
  unfold call_job in H. inversion H as [[Hr Hs]]; clear H.
  apply at_line_ok in Hr.
  eexists. split; [reflexivity|]. split; [reflexivity|].
  split; [exact Hr|]. split; [reflexivity|]. split; [reflexivity|].
  repeat split; by simplify_map_eq.
Qed.
End Lifecycle.

(** ** [publish] followed by [finalize] *)

Lemma run_publish_ok : publish Fixture.B0 Fixture.E0 VNone Run.st0 = (Ok tt, Run.st1).
Proof. vm_compute. reflexivity. Qed.

Lemma run_finalize_ok :
  finalize Fixture.B0 Fixture.E0 VNone Run.st1 = (Ok (VInt 103), Run.st2).
Proof. vm_compute. reflexivity. Qed.

Lemma run_log_shape :
  exists data c j2 j3,
    st_log Run.st2 = [SgCreate "Version" data; Transcode c; BackburnerJob j2;
                  BackburnerJob j3] /\
    dependencies j2 = VInt 101 /\ dependencies j3 = VInt 101.
Proof. vm_compute. eexists _, _, _, _. repeat split. Qed.

(** C1, as the specification states it, fails: on a queue that numbers its
    jobs 101, 102, 103 the run submits three jobs and creates one record,
    but job 3 waits for job 101 (job 1), not for job 102 (job 2). *)
Lemma upload_job_waits_for_transcode_not_for_update :
  publish Fixture.B0 Fixture.E0 VNone Run.st0 = (Ok tt, Run.st1) /\
  finalize Fixture.B0 Fixture.E0 VNone Run.st1 = (Ok (VInt 103), Run.st2) /\
  ~ linear_chain Fixture.E0 (st_log Run.st0) (st_log Run.st2).
Proof.
  split; [exact run_publish_ok|]. split; [exact run_finalize_ok|].
  intros (ch & (data & c & dst & files & Hlog & Ht & Hj) & H2 & H3).
  destruct run_log_shape as (data' & c' & j2 & j3 & Hshape & Hd2 & Hd3).
  pose proof (eq_trans (eq_sym Hshape) Hlog) as Hl.
  clear Hlog Hshape.
  change (st_log Run.st0) with (@nil Event) in Hl, Hj.
  rewrite app_nil_l in Hl, Hj.
  injection Hl as Hdata Hc Hj2 Hj3.
  cbn in Hj. injection Hj as Hid.
  rewrite <- Hj3, Hd3, <- Hid in H3. discriminate.
Qed.

(** C1, amended. When [publish] succeeds on an item and [finalize] then
    returns, the two calls together have made exactly one record creation
    and exactly three job submissions (the transcode request and two
    Backburner jobs), in that order; job 2 waits for the id of job 1, and
    job 3 waits for the id of job 1 as well. *)
Theorem publish_finalize_chain
    (B : Builtins) (E : Engine) (settings : pyval) (st st1 st2 : state)
    (r : pyval) :
  publish B E settings st = (Ok tt, st1) ->
  finalize B E settings st1 = (Ok r, st2) ->
  forked_chain E (st_log st) (st_log st2).
Proof.
  intros Hp Hf.
  apply publish_inv in Hp
    as (l & version & p & c & j & job_id & dst & files & q & _ & _ & _ & Hlog
        & Ht & [id2 Hid2] & _ & _ & _ & _ & Hj & _ & Hq & _ & Hqd & _).
  unfold finalize in Hf.
  apply bind_inv in Hf as (qj & s & Hg & Hf).
  unfold props_get, dict_get in Hg. rewrite Hq in Hg.
  inversion Hg; subst qj s; clear Hg.
  rewrite (truthy_dict_lookup q _ _ Hqd) in Hf.
  apply upload_quicktime_job_inv in Hf
    as (j3 & _ & Hlog3 & _ & Hd3 & _).
  exists {| job1_id := job_id; job2 := j; job2_id := id2; job3 := j3 |}.
  split.
  - exists (ver_data l), c, dst, files. simpl.
    split; [|split; assumption].
    rewrite Hlog3, Hlog, <- app_assoc. reflexivity.
  - simpl. split; [exact Hj|].
    rewrite Hd3. unfold dict_get. now rewrite Hqd.
Qed.

Lemma publish_finalize_chain_witness :
  forked_chain Fixture.E0 (st_log Run.st0) (st_log Run.st2).
Proof.
  apply (publish_finalize_chain Fixture.B0 Fixture.E0 VNone
           Run.st0 Run.st1 Run.st2 (VInt 103)).
  - vm_compute. reflexivity.
  - vm_compute. reflexivity.
Defined.

(** ** The Version metadata *)

Section Metadata.
Context (B : Builtins).

Ltac run_result :=
  unfold mbind, result_bind, rbind, mret, result_ret, at_line in *.

(** The builder, step by step. *)
Lemma build_ver_data_inv it l :
  build_ver_data B it = Ok l ->
  exists vd1 vd2 vd3,
    dict_get (properties it) "assetInfo" (VDict ∅) = VDict (asset_info l) /\
    path l = dict_get (properties it) "path" VNone /\
    file_path l = dict_get (properties it) "file_path" (path l) /\
    set_frame_rate B (asset_info l) (init_ver_data it (path l)) = Ok vd1 /\
    set_aspect_ratio B (asset_info l) vd1 = Ok vd2 /\
    set_frame_range (file_path l) vd2 = Ok vd3 /\
    set_frames B (asset_info l) vd3 = Ok (ver_data l).
Proof.
  unfold build_ver_data. intros H.
  apply rbind_inv in H as (a & Ha & H).
  apply at_line_ok in Ha.
  destruct (dict_get (properties it) "assetInfo" (VDict ∅))
    as [| | | | | |a'] eqn:Hd; simpl in Ha; try discriminate.
  inversion Ha; subst a'; clear Ha.
  apply rbind_inv in H as (vd1 & H1 & H).
  apply rbind_inv in H as (vd2 & H2 & H).
  apply rbind_inv in H as (vd3 & H3 & H).
  apply rbind_inv in H as (vd4 & H4 & H).
  inversion H; subst l; clear H. simpl.
  exists vd1, vd2, vd3. auto 10.
Qed.

(** The other direction: steps that all pass make the builder return. *)
Lemma build_ver_data_intro it a vd1 vd2 vd3 vd4 :
  dict_get (properties it) "assetInfo" (VDict ∅) = VDict a ->
  set_frame_rate B a
    (init_ver_data it (dict_get (properties it) "path" VNone)) = Ok vd1 ->
  set_aspect_ratio B a vd1 = Ok vd2 ->
  set_frame_range
    (dict_get (properties it) "file_path"
       (dict_get (properties it) "path" VNone)) vd2 = Ok vd3 ->
  set_frames B a vd3 = Ok vd4 ->
  build_ver_data B it =
    Ok {| path := dict_get (properties it) "path" VNone;
          asset_info := a;
          file_path := dict_get (properties it) "file_path"
                         (dict_get (properties it) "path" VNone);
          ver_data := vd4 |}.
Proof.
  intros Ha H1 H2 H3 H4. unfold build_ver_data.
  rewrite Ha. simpl. run_result. now rewrite H1, H2, H3, H4.
Qed.

Lemma init_ver_data_fresh it p k :
  k ≠ "sg_department" -> k ≠ "sg_path_to_frames" -> k ≠ "sg_task" ->
  k ≠ "entity" -> k ≠ "description" -> k ≠ "code" -> k ≠ "project" ->
  init_ver_data it p !! k = None.
Proof.
  intros. unfold init_ver_data.
  rewrite !lookup_insert_ne by congruence. apply lookup_empty.
Qed.

(** *** The frame rate, lines 161 to 163 *)

Lemma set_frame_rate_other a vd vd' k :
  set_frame_rate B a vd = Ok vd' ->
  k ≠ "sg_uploaded_movie_frame_rate" -> vd' !! k = vd !! k.
Proof.
  unfold set_frame_rate. intros H Hk.
  destruct (truthy (dict_get a "fps" VNone)).
  - run_result. destruct (py_float B _); inversion H; subst.
    now rewrite lookup_insert_ne by congruence.
  - inversion H. reflexivity.
Qed.

Lemma set_frame_rate_truthy a vd vd' v :
  set_frame_rate B a vd = Ok vd' ->
  a !! "fps" = Some v -> truthy v = true ->
  exists f, py_float B v = inr f /\
            vd' !! "sg_uploaded_movie_frame_rate" = Some (VFloat f).
Proof.
  unfold set_frame_rate, dict_get. intros H Hv Ht. rewrite Hv, Ht in H.
  run_result. destruct (py_float B v) as [k|f]; inversion H; subst.
  exists f. split; [reflexivity|]. apply lookup_insert_eq.
Qed.

Lemma set_frame_rate_falsy a vd vd' :
  set_frame_rate B a vd = Ok vd' ->
  truthy (dict_get a "fps" VNone) = false ->
  vd' = vd.
Proof.
  unfold set_frame_rate. intros H Ht. rewrite Ht in H. now inversion H.
Qed.

Lemma set_frame_rate_set a vd v f :
  a !! "fps" = Some v -> truthy v = true -> py_float B v = inr f ->
  set_frame_rate B a vd
  = Ok (<["sg_uploaded_movie_frame_rate" := VFloat f]> vd).
Proof.
  intros Hv Ht Hf. unfold set_frame_rate, dict_get.
  rewrite Hv, Ht. run_result. now rewrite Hf.
Qed.

Lemma set_frame_rate_skip a vd :
  truthy (dict_get a "fps" VNone) = false -> set_frame_rate B a vd = Ok vd.
Proof. intros Ht. unfold set_frame_rate. now rewrite Ht. Qed.

(** *** The aspect ratio, lines 165 to 168 *)

Lemma set_aspect_ratio_other a vd vd' k :
  set_aspect_ratio B a vd = Ok vd' ->
  k ≠ "sg_frames_aspect_ratio" -> k ≠ "sg_movie_aspect_ratio" ->
  vd' !! k = vd !! k.
Proof.
  unfold set_aspect_ratio. intros H Hk1 Hk2.
  destruct (truthy (VDict a)).
  - run_result. destruct (py_float B _); inversion H; subst.
    now rewrite !lookup_insert_ne by congruence.
  - inversion H. reflexivity.
Qed.

Lemma set_aspect_ratio_nonempty a vd vd' :
  set_aspect_ratio B a vd = Ok vd' -> a ≠ ∅ ->
  exists f, py_float B (dict_get a "aspectRatio" VNone) = inr f /\
            vd' !! "sg_frames_aspect_ratio" = Some (VFloat f) /\
            vd' !! "sg_movie_aspect_ratio" = Some (VFloat f).
Proof.
  unfold set_aspect_ratio. intros H Ha.
  apply truthy_dict_nonempty in Ha. rewrite Ha in H.
  run_result.
  destruct (py_float B (dict_get a "aspectRatio" VNone)) as [k|f];
    inversion H; subst.
  exists f. split; [reflexivity|]. split; by simplify_map_eq.
Qed.

Lemma set_aspect_ratio_empty vd : set_aspect_ratio B ∅ vd = Ok vd.
Proof. reflexivity. Qed.

(** A mapping that is not empty and whose [aspectRatio] is missing: the
    conversion of [None] raises. *)
Lemma set_aspect_ratio_missing a vd :
  a ≠ ∅ -> a !! "aspectRatio" = None ->
  set_aspect_ratio B a vd = Err (Raise TypeError 167).
Proof.
  intros Ha Hk. unfold set_aspect_ratio, dict_get.
  apply truthy_dict_nonempty in Ha. rewrite Ha, Hk. reflexivity.
Qed.

(** *** The frames, lines 179 to 182 *)

Lemma set_frames_other a vd vd' k :
  set_frames B a vd = Ok vd' ->
  k ≠ "sg_first_frame" -> k ≠ "sg_last_frame" -> k ≠ "frame_count" ->
  vd' !! k = vd !! k.
Proof.
  unfold set_frames. intros H H1 H2 H3.
  destruct (dict_has a "sourceIn" && dict_has a "sourceOut").
  - run_result.
    destruct (py_sub _ _); try discriminate.
    destruct (py_int B _); try discriminate.
    destruct (py_int B _); try discriminate.
    inversion H; subst.
    now rewrite !lookup_insert_ne by congruence.
  - inversion H. reflexivity.
Qed.

Lemma set_frames_ints a vd x y :
  a !! "sourceIn" = Some (VInt x) -> a !! "sourceOut" = Some (VInt y) ->
  set_frames B a vd =
    Ok (<["frame_count" := VInt (y - 1 - x + 1)]>
          (<["sg_last_frame" := VInt (y - 1)]>
             (<["sg_first_frame" := VInt x]> vd))).
Proof.
  intros Hx Hy. unfold set_frames, dict_has, dict_item, dict_get.
  rewrite Hx, Hy. simpl.
  rewrite lookup_insert_eq.
  rewrite lookup_insert_ne by discriminate. rewrite lookup_insert_eq.
  reflexivity.
Qed.

Lemma set_frames_not_both a vd :
  dict_has a "sourceIn" && dict_has a "sourceOut" = false ->
  set_frames B a vd = Ok vd.
Proof. intros H. unfold set_frames. now rewrite H. Qed.

(** *** The frame range, lines 175 to 177 *)

Lemma set_frame_range_other fp vd vd' k :
  set_frame_range fp vd = Ok vd' -> k ≠ "frame_range" -> vd' !! k = vd !! k.
Proof.
  unfold set_frame_range. intros H Hk. run_result.
  destruct (as_str fp); try discriminate.
  destruct (Re.search _ _); inversion H; subst.
  - now rewrite lookup_insert_ne by congruence.
  - reflexivity.
Qed.

Lemma set_frame_range_str s vd :
  set_frame_range (VStr s) vd =
    Ok (match Re.search Re.frame_range_re s with
        | Some m => <["frame_range" := VStr (Str.slice_1_m1 (Re.group1 m))]> vd
        | None => vd
        end).
Proof.
  unfold set_frame_range. simpl. run_result.
  now destruct (Re.search _ _).
Qed.

Lemma set_frame_range_not_str fp vd :
  as_str fp = inl TypeError ->
  set_frame_range fp vd = Err (Raise TypeError 175).
Proof. intros H. unfold set_frame_range. now rewrite H. Qed.
End Metadata.

(** The fields that come from [assetInfo] are absent from the metadata of
    an item whose [assetInfo] is empty or missing. *)
Lemma empty_asset_info_fields (B : Builtins) (it : Item) (l : Locals) :
  dict_get (properties it) "assetInfo" (VDict ∅) = VDict ∅ ->
  build_ver_data B it = Ok l ->
  ver_data l !! "sg_uploaded_movie_frame_rate" = None /\
  ver_data l !! "sg_frames_aspect_ratio" = None /\
  ver_data l !! "sg_movie_aspect_ratio" = None /\
  ver_data l !! "sg_first_frame" = None /\
  ver_data l !! "sg_last_frame" = None /\
  ver_data l !! "frame_count" = None.
Proof.
  intros Ha H.
  apply build_ver_data_inv in H as (vd1 & vd2 & vd3 & Ha' & _ & _ & H1 & H2 & H3 & H4).
  rewrite Ha in Ha'. inversion Ha' as [Hempty]. rewrite <- Hempty in *.
  rewrite set_aspect_ratio_empty in H2. inversion H2; subst vd2.
  apply set_frame_rate_falsy in H1; [|reflexivity]. subst vd1.
  rewrite set_frames_not_both in H4 by reflexivity. inversion H4 as [Hvd].
  repeat split; rewrite <- Hvd;
    rewrite (set_frame_range_other _ _ _ _ H3) by discriminate;
    now apply init_ver_data_fresh.
Qed.

(** With no [assetInfo], the builder returns for every file path that is a
    string. *)
Lemma empty_asset_info_returns (B : Builtins) (it : Item) (fp : string) :
  dict_get (properties it) "assetInfo" (VDict ∅) = VDict ∅ ->
  dict_get (properties it) "file_path"
    (dict_get (properties it) "path" VNone) = VStr fp ->
  exists l, build_ver_data B it = Ok l.
Proof.
  intros Ha Hfp. eexists.
  eapply build_ver_data_intro.
  - exact Ha.
  - reflexivity.
  - reflexivity.
  - rewrite Hfp. apply set_frame_range_str.
  - reflexivity.
Qed.

Lemma singleton_not_empty (k : string) (v : pyval) :
  ({[ k := v ]} : gmap string pyval) ≠ ∅.
Proof.
  intros He. apply (f_equal (fun m => m !! k)) in He.
  now rewrite lookup_singleton_eq, lookup_empty in He.
Qed.

(** An exception of the aspect step is the builder's. *)
Lemma build_ver_data_aspect_err (B : Builtins) (it : Item)
    (a vd1 : gmap string pyval) (e : exn) :
  dict_get (properties it) "assetInfo" (VDict ∅) = VDict a ->
  set_frame_rate B a
    (init_ver_data it (dict_get (properties it) "path" VNone)) = Ok vd1 ->
  set_aspect_ratio B a vd1 = Err e ->
  build_ver_data B it = Err e.
Proof.
  intros Ha H1 H2. unfold build_ver_data. rewrite Ha.
  unfold mbind, result_bind. cbn [at_line as_dict rbind].
  rewrite H1. cbn [rbind]. rewrite H2. reflexivity.
Qed.

(** A mapping with [fps] alone stops the builder at line 167. *)
Lemma build_ver_data_fps_only (B : Builtins) (it : Item) (v : pyval) (f : spec_float) :
  properties it !! "assetInfo" = Some (VDict {[ "fps" := v ]}) ->
  truthy v = true -> py_float B v = inr f ->
  build_ver_data B it = Err (Raise TypeError 167).
Proof.
  intros H Ht Hf.
  eapply build_ver_data_aspect_err.
  - unfold dict_get. now rewrite H.
  - unfold set_frame_rate. unfold dict_get at 1.
    rewrite lookup_singleton_eq, Ht.
    unfold dict_get. rewrite lookup_singleton_eq, Hf. reflexivity.
  - apply set_aspect_ratio_missing.
    + apply singleton_not_empty.
    + now rewrite lookup_singleton_ne by discriminate.
Qed.

(** C2. The assetInfo [{fps: 24.0}] does not give a VersionData with the
    frame rate 24.0 and no aspect field: the mapping is not empty, so line
    167 converts its missing [aspectRatio], [None], to a float.  The builder
    raises [TypeError], and [publish] stops there, before any call to a
    collaborator. *)
Theorem fps_only_asset_info_raises
    (B : Builtins) (E : Engine) (settings : pyval) (st : state) :
  properties (st_item st) !! "assetInfo"
    = Some (VDict {[ "fps" := VFloat Fixture.f24 ]}) ->
  build_ver_data B (st_item st) = Err (Raise TypeError 167) /\
  publish B E settings st = (Err (Raise TypeError 167), st).
Proof.
  intros H.
  assert (Hb : build_ver_data B (st_item st) = Err (Raise TypeError 167)).
  { now apply (build_ver_data_fps_only B _ _ Fixture.f24 H). }
  split; [exact Hb|].
  unfold publish.
  rewrite (bind_ok _ _ st (st_item st) st) by reflexivity.
  apply bind_err. unfold lift. now rewrite Hb.
Qed.

Lemma fps_only_asset_info_raises_witness :
  build_ver_data Fixture.B0
    (Fixture.item_with (Fixture.props_of {[ "fps" := VFloat Fixture.f24 ]}))
  = Err (Raise TypeError 167) /\
  publish Fixture.B0 Fixture.E0 VNone
    (Fixture.start
       (Fixture.item_with (Fixture.props_of {[ "fps" := VFloat Fixture.f24 ]})))
  = (Err (Raise TypeError 167),
     Fixture.start
       (Fixture.item_with (Fixture.props_of {[ "fps" := VFloat Fixture.f24 ]}))).
Proof.
  apply (fps_only_asset_info_raises Fixture.B0 Fixture.E0 VNone
           (Fixture.start
              (Fixture.item_with
                 (Fixture.props_of {[ "fps" := VFloat Fixture.f24 ]})))).
  reflexivity.
Defined.

(** C3, as the specification states it, fails: [{fps: 24.0}] is not empty,
    and the builder sets no aspect field for it. *)
Lemma aspect_fields_not_set_for_fps_only :
  ~ (sets_aspect_fields Fixture.B0
       (Fixture.item_with (Fixture.props_of {[ "fps" := VFloat Fixture.f24 ]}))
       {[ "fps" := VFloat Fixture.f24 ]}
     <-> ({[ "fps" := VFloat Fixture.f24 ]} : gmap string pyval) ≠ ∅).
Proof.
  intros [_ H].
  destruct H as (l & f & Hb & _).
  - apply singleton_not_empty.
  - rewrite (build_ver_data_fps_only Fixture.B0 _ (VFloat Fixture.f24) Fixture.f24)
      in Hb by reflexivity.
    discriminate.
Qed.


(** C3, amended. For every assetInfo on which the builder returns a
    VersionData, both aspect fields are set to [float(aspectRatio)] if and
    only if the mapping is not empty; the test is on the whole mapping, not
    on the [aspectRatio] key, and for an empty mapping neither field is
    present. *)
Theorem aspect_fields_iff_nonempty
    (B : Builtins) (it : Item) (a : gmap string pyval) (l : Locals) :
  dict_get (properties it) "assetInfo" (VDict ∅) = VDict a ->
  build_ver_data B it = Ok l ->
  (sets_aspect_fields B it a <-> a ≠ ∅) /\
  (a = ∅ ->
   ver_data l !! "sg_frames_aspect_ratio" = None /\
   ver_data l !! "sg_movie_aspect_ratio" = None).
Proof.
  intros Ha Hb.
  assert (Hempty : a = ∅ ->
    ver_data l !! "sg_frames_aspect_ratio" = None /\
    ver_data l !! "sg_movie_aspect_ratio" = None).
  { intros ->.
    destruct (empty_asset_info_fields B it l Ha Hb) as (_ & H1 & H2 & _).
    now split. }
  split; [|exact Hempty].
  split.
  - intros (l' & f & Hb' & _ & Hf & _) He.
    rewrite Hb in Hb'. inversion Hb'; subst l'.
    destruct (Hempty He) as [Hn _]. rewrite Hn in Hf. discriminate.
  - intros Hne.
    pose proof Hb as Hb0.
    apply build_ver_data_inv in Hb
      as (vd1 & vd2 & vd3 & Ha' & _ & _ & H1 & H2 & H3 & H4).
    rewrite Ha in Ha'. inversion Ha' as [Ha'']. rewrite <- Ha'' in *.
    destruct (set_aspect_ratio_nonempty B a vd1 vd2 H2 Hne)
      as (f & Hf & Hfr & Hmv).
    exists l, f. split; [exact Hb0|]. split; [exact Hf|].
    split.
    + rewrite (set_frames_other B _ _ _ _ H4) by discriminate.
      rewrite (set_frame_range_other _ _ _ _ H3) by discriminate.
      exact Hfr.
    + rewrite (set_frames_other B _ _ _ _ H4) by discriminate.
      rewrite (set_frame_range_other _ _ _ _ H3) by discriminate.
      exact Hmv.
Qed.

(** For [{aspectRatio: 1.78}] both fields are 1.78. *)
Lemma aspect_fields_iff_nonempty_witness :
  (sets_aspect_fields Fixture.B0 AspectItem.item_178 AspectItem.asset_178
   <-> AspectItem.asset_178 ≠ ∅) /\
  (AspectItem.asset_178 = ∅ ->
   ver_data AspectItem.locals_178 !! "sg_frames_aspect_ratio" = None /\
   ver_data AspectItem.locals_178 !! "sg_movie_aspect_ratio" = None).
Proof.
  apply (aspect_fields_iff_nonempty Fixture.B0 AspectItem.item_178
           AspectItem.asset_178 AspectItem.locals_178).
  - reflexivity.
  - reflexivity.
Defined.

(** The rate step stores [float(fps)] under the frame-rate field when
    [assetInfo] has an [fps] whose value is truthy, and stores nothing when
    [fps] is missing, zero or falsy in another way.  So in the VersionData
    that the builder returns the field is present if and only if [fps] is
    present and truthy, and it is then [float(fps)].  For an item whose
    [assetInfo] is missing or empty the builder returns for every string
    file path, and none of the rate, aspect and frame fields is in what it
    returns. *)
Theorem frame_rate_iff_fps_truthy
    (B : Builtins) (it : Item) (a : gmap string pyval) :
  dict_get (properties it) "assetInfo" (VDict ∅) = VDict a ->
  (forall vd v f,
     a !! "fps" = Some v -> truthy v = true -> py_float B v = inr f ->
     set_frame_rate B a vd
     = Ok (<["sg_uploaded_movie_frame_rate" := VFloat f]> vd)) /\
  (forall vd,
     truthy (dict_get a "fps" VNone) = false -> set_frame_rate B a vd = Ok vd) /\
  (forall l, build_ver_data B it = Ok l ->
     (is_Some (ver_data l !! "sg_uploaded_movie_frame_rate")
      <-> exists v, a !! "fps" = Some v /\ truthy v = true) /\
     (forall v, a !! "fps" = Some v -> truthy v = true ->
        exists f, py_float B v = inr f /\
          ver_data l !! "sg_uploaded_movie_frame_rate" = Some (VFloat f))) /\
  (a = ∅ ->
   (forall fp,
      dict_get (properties it) "file_path"
        (dict_get (properties it) "path" VNone) = VStr fp ->
      exists l, build_ver_data B it = Ok l) /\
   (forall l, build_ver_data B it = Ok l ->
      ver_data l !! "sg_uploaded_movie_frame_rate" = None /\
      ver_data l !! "sg_frames_aspect_ratio" = None /\
      ver_data l !! "sg_movie_aspect_ratio" = None /\
      ver_data l !! "sg_first_frame" = None /\
      ver_data l !! "sg_last_frame" = None /\
      ver_data l !! "frame_count" = None)).
Proof.
  intros Ha.
  split; [intros vd v f; apply set_frame_rate_set|].
  split; [intros vd; apply set_frame_rate_skip|].
  split.
  - intros l Hb.
    apply build_ver_data_inv in Hb
      as (vd1 & vd2 & vd3 & Ha' & Hp & _ & H1 & H2 & H3 & H4).
    rewrite Ha in Ha'. inversion Ha' as [Ha'']. rewrite <- Ha'' in *.
    assert (Hfinal : ver_data l !! "sg_uploaded_movie_frame_rate"
                     = vd1 !! "sg_uploaded_movie_frame_rate").
    { rewrite (set_frames_other B _ _ _ _ H4) by discriminate.
      rewrite (set_frame_range_other _ _ _ _ H3) by discriminate.
      now rewrite (set_aspect_ratio_other B _ _ _ _ H2) by discriminate. }
    rewrite Hfinal. split.
    + split.
      * intros [x Hx].
        destruct (a !! "fps") as [v|] eqn:Hv.
        -- destruct (truthy v) eqn:Ht; [now exists v|].
           apply set_frame_rate_falsy in H1.
           ++ subst vd1. rewrite init_ver_data_fresh in Hx by discriminate.
              discriminate.
           ++ unfold dict_get. now rewrite Hv.
        -- apply set_frame_rate_falsy in H1.
           ++ subst vd1. rewrite init_ver_data_fresh in Hx by discriminate.
              discriminate.
           ++ unfold dict_get. now rewrite Hv.
      * intros (v & Hv & Ht).
        destruct (set_frame_rate_truthy B a _ vd1 v H1 Hv Ht) as (f & _ & Hf).
        now exists (VFloat f).
    + intros v Hv Ht. now apply (set_frame_rate_truthy B a _ vd1 v H1 Hv Ht).
  - intros ->. split.
    + intros fp Hfp. now apply (empty_asset_info_returns B it fp).
    + intros l Hb. now apply (empty_asset_info_fields B it l).
Qed.

(** [{fps: 24.0, aspectRatio: 1.78}] gives the frame rate 24.0. *)
Lemma frame_rate_iff_fps_truthy_witness :
  exists l,
    build_ver_data Fixture.B0 RateItem.item9 = Ok l /\
    ver_data l !! "sg_uploaded_movie_frame_rate" = Some (VFloat Fixture.f24).
Proof.
  destruct (frame_rate_iff_fps_truthy Fixture.B0 RateItem.item9 RateItem.asset
              eq_refl) as (_ & _ & H & _).
  eexists. split; [reflexivity|].
  match goal with
  | |- ver_data ?l !! _ = _ =>
      destruct (H l eq_refl) as [_ Hv];
      destruct (Hv (VFloat Fixture.f24) eq_refl eq_refl) as (f & Hf & Hl)
  end.
  inversion Hf; subst f. exact Hl.
Defined.

(** When [assetInfo] holds the integers [sourceIn] and [sourceOut],
    the frames step stores [sg_first_frame = sourceIn],
    [sg_last_frame = sourceOut - 1] and the integer
    [frame_count = sg_last_frame - sg_first_frame + 1]; they are in the
    VersionData that the builder returns, and the builder does return once
    the rate and aspect steps have passed and the file path is a string.
    When the two keys are not both there, none of the three fields is
    set. *)
Theorem frames_from_source_range
    (B : Builtins) (it : Item) (a : gmap string pyval) :
  dict_get (properties it) "assetInfo" (VDict ∅) = VDict a ->
  (forall x y,
     a !! "sourceIn" = Some (VInt x) -> a !! "sourceOut" = Some (VInt y) ->
     (forall vd,
        set_frames B a vd =
          Ok (<["frame_count" := VInt (y - 1 - x + 1)]>
                (<["sg_last_frame" := VInt (y - 1)]>
                   (<["sg_first_frame" := VInt x]> vd)))) /\
     (forall l, build_ver_data B it = Ok l ->
        ver_data l !! "sg_first_frame" = Some (VInt x) /\
        ver_data l !! "sg_last_frame" = Some (VInt (y - 1)) /\
        ver_data l !! "frame_count" = Some (VInt (y - 1 - x + 1))) /\
     (forall vd1 vd2 fp,
        set_frame_rate B a
          (init_ver_data it (dict_get (properties it) "path" VNone)) = Ok vd1 ->
        set_aspect_ratio B a vd1 = Ok vd2 ->
        dict_get (properties it) "file_path"
          (dict_get (properties it) "path" VNone) = VStr fp ->
        exists l, build_ver_data B it = Ok l)) /\
  (dict_has a "sourceIn" && dict_has a "sourceOut" = false ->
   forall l, build_ver_data B it = Ok l ->
     ver_data l !! "sg_first_frame" = None /\
     ver_data l !! "sg_last_frame" = None /\
     ver_data l !! "frame_count" = None).
Proof.
  intros Ha. split.
  - intros x y Hx Hy. split; [|split].
    + intros vd. now apply set_frames_ints.
    + intros l Hb.
      apply build_ver_data_inv in Hb
        as (vd1 & vd2 & vd3 & Ha' & _ & _ & _ & _ & _ & H4).
      rewrite Ha in Ha'. inversion Ha' as [Ha'']. rewrite <- Ha'' in *.
      rewrite (set_frames_ints B a vd3 x y Hx Hy) in H4.
      inversion H4 as [Hvd].
      repeat split; by simplify_map_eq.
    + intros vd1 vd2 fp H1 H2 Hfp. eexists.
      eapply build_ver_data_intro.
      * exact Ha.
      * exact H1.
      * exact H2.
      * rewrite Hfp. apply set_frame_range_str.
      * apply (set_frames_ints B a _ x y Hx Hy).
  - intros Hnb l Hb.
    apply build_ver_data_inv in Hb
      as (vd1 & vd2 & vd3 & Ha' & _ & _ & H1 & H2 & H3 & H4).
    rewrite Ha in Ha'. inversion Ha' as [Ha'']. rewrite <- Ha'' in *.
    rewrite set_frames_not_both in H4 by exact Hnb.
    inversion H4 as [Hvd].
    repeat split; rewrite <- Hvd;
      rewrite (set_frame_range_other _ _ _ _ H3) by discriminate;
      rewrite (set_aspect_ratio_other B _ _ _ _ H2) by discriminate;
      rewrite (set_frame_rate_other B _ _ _ _ H1) by discriminate;
      now apply init_ver_data_fresh.
Qed.

(** [sourceIn = 1001] and [sourceOut = 1051] give the frames 1001 to 1050
    and the count 50. *)
Lemma frames_from_source_range_witness :
  exists l,
    build_ver_data Fixture.B0 FramesItem.item5 = Ok l /\
    ver_data l !! "sg_first_frame" = Some (VInt 1001) /\
    ver_data l !! "sg_last_frame" = Some (VInt 1050) /\
    ver_data l !! "frame_count" = Some (VInt 50).
Proof.
  destruct (frames_from_source_range Fixture.B0 FramesItem.item5 FramesItem.asset
              eq_refl) as [H _].
  eexists. split; [reflexivity|].
  match goal with
  | |- ver_data ?l !! _ = _ /\ _ =>
      destruct (H 1001 1051 eq_refl eq_refl) as (_ & Hl & _);
      exact (Hl l eq_refl)
  end.
Defined.

(** ** An item without a path *)

Section NoPath.
Context (B : Builtins).

Lemma set_frame_rate_err_line a vd e :
  set_frame_rate B a vd = Err e -> line e = 163%nat.
Proof.
  unfold set_frame_rate. destruct (truthy _); [|discriminate].
  unfold mbind, result_bind, rbind, at_line.
  destruct (py_float B _); intros H; inversion H. reflexivity.
Qed.

Lemma set_aspect_ratio_err_line a vd e :
  set_aspect_ratio B a vd = Err e -> line e = 167%nat.
Proof.
  unfold set_aspect_ratio. destruct (truthy _); [|discriminate].
  unfold mbind, result_bind, rbind, at_line.
  destruct (py_float B _); intros H; inversion H. reflexivity.
Qed.

(** Without ["path"] and ["file_path"] the builder raises, at line 175 or
    before it; at line 175, and a [TypeError], when the steps before it
    pass. *)
Lemma build_ver_data_no_path it :
  properties it !! "path" = None ->
  properties it !! "file_path" = None ->
  exists e,
    build_ver_data B it = Err e /\
    (line e <= 175)%nat /\
    (forall a vd1 vd2,
       dict_get (properties it) "assetInfo" (VDict ∅) = VDict a ->
       set_frame_rate B a (init_ver_data it VNone) = Ok vd1 ->
       set_aspect_ratio B a vd1 = Ok vd2 ->
       e = Raise TypeError 175).
Proof.
  intros Hp Hf. unfold build_ver_data.
  assert (Hpath : dict_get (properties it) "path" VNone = VNone).
  { unfold dict_get. now rewrite Hp. }
  assert (Hfile : dict_get (properties it) "file_path" VNone = VNone).
  { unfold dict_get. now rewrite Hf. }
  rewrite Hpath, Hfile.
  unfold mbind, result_bind.
  destruct (dict_get (properties it) "assetInfo" (VDict ∅))
    as [| | | | | |a];
    try (eexists; split; [reflexivity|]; split; [simpl; lia|];
         intros; discriminate).
  cbn [at_line as_dict rbind].
  destruct (set_frame_rate B a (init_ver_data it VNone)) as [vd1|e1] eqn:H1.
  2:{ exists e1. split; [reflexivity|].
      rewrite (set_frame_rate_err_line _ _ _ H1).
      split; [lia|]. intros a' ? ? Ha' Hr. inversion Ha'; subst a'.
      rewrite H1 in Hr. discriminate. }
  cbn [rbind].
  destruct (set_aspect_ratio B a vd1) as [vd2|e2] eqn:H2.
  2:{ exists e2. split; [reflexivity|].
      rewrite (set_aspect_ratio_err_line _ _ _ H2).
      split; [lia|]. intros a' vd1' ? Ha' Hr Hs. inversion Ha'; subst a'.
      rewrite H1 in Hr. inversion Hr; subst vd1'. rewrite H2 in Hs.
      discriminate. }
  cbn [rbind].
  exists (Raise TypeError 175). split; [reflexivity|].
  split; [simpl; lia|]. reflexivity.
Qed.
End NoPath.

(** C10, amended. For an item whose properties hold neither ["path"] nor
    ["file_path"], [publish] raises before it reaches [sg.create] at line
    185: the log of calls and the item are as they were, so no Version is
    created and no job is submitted.  The exception comes from line 175 or
    from a line before it, and when the rate and aspect steps pass it is the
    [TypeError] of the frame-range search at line 175. *)
Theorem publish_without_path_raises
    (B : Builtins) (E : Engine) (settings : pyval) (st : state) :
  properties (st_item st) !! "path" = None ->
  properties (st_item st) !! "file_path" = None ->
  exists e,
    publish B E settings st = (Err e, st) /\
    (line e <= 175)%nat /\
    (forall a vd1 vd2,
       dict_get (properties (st_item st)) "assetInfo" (VDict ∅) = VDict a ->
       set_frame_rate B a (init_ver_data (st_item st) VNone) = Ok vd1 ->
       set_aspect_ratio B a vd1 = Ok vd2 ->
       e = Raise TypeError 175).
Proof.
  intros Hp Hf.
  destruct (build_ver_data_no_path B (st_item st) Hp Hf) as (e & Hb & Hl & He).
  exists e. split; [|split; assumption].
  unfold publish.
  rewrite (bind_ok _ _ st (st_item st) st) by reflexivity.
  apply bind_err. unfold lift. now rewrite Hb.
Qed.

(** An item with a rate and an aspect ratio but no path: the [TypeError] of
    line 175, and nothing done. *)
Lemma publish_without_path_raises_witness :
  publish Fixture.B0 Fixture.E0 VNone (Fixture.start NoPathItem.item10)
  = (Err (Raise TypeError 175), Fixture.start NoPathItem.item10).
Proof.
  destruct (publish_without_path_raises Fixture.B0 Fixture.E0 VNone
              (Fixture.start NoPathItem.item10) eq_refl eq_refl)
    as (e & Hpub & _ & He).
  rewrite (He RateItem.asset _ _ eq_refl eq_refl eq_refl) in Hpub.
  exact Hpub.
Defined.

(** ** The frame range token *)

Section FrameRange.
Import Re.

Lemma append_cons x (a b : string) : String x a ++ b = String x (a ++ b).
Proof. reflexivity. Qed.

Lemma append_nil_l (b : string) : "" ++ b = b.
Proof. reflexivity. Qed.

Ltac sapp := rewrite ?append_cons, ?append_nil_l.

Lemma append_assoc (a b c : string) : (a ++ b) ++ c = a ++ (b ++ c).
Proof.
  induction a as [|x a IH]; [reflexivity|]. sapp. now rewrite IH.
Qed.

Lemma append_nil_r (a : string) : a ++ "" = a.
Proof.
  induction a as [|x a IH]; [reflexivity|]. sapp. now rewrite IH.
Qed.

(** A [+] over a run of its class that ends the string or is followed by a
    character outside the class takes the whole run, when the pattern goes
    on with a literal outside the class. *)
Lemma plus_takes_run cls c p d rest :
  cls c = false ->
  d ≠ "" -> all_in cls d = true ->
  match rest with
  | String x _ => cls x = false
  | EmptyString => True
  end ->
  match_here (Plus cls :: Lit c :: p) (d ++ rest)
  = (fun r => toks d ++ r)%list <$> match_here (Lit c :: p) rest.
Proof.
  intros Hc. induction d as [|x d IH]; intros Hne Hall Hrest; [congruence|].
  simpl in Hall. apply andb_prop in Hall as [Hx Hall].
  change (match_here (Plus cls :: Lit c :: p) (String x d ++ rest))
    with (if cls x then
            match match_here (Plus cls :: Lit c :: p) (d ++ rest) with
            | Some r => Some (Tc x :: r)
            | None => cons (Tc x) <$> match_here (Lit c :: p) (d ++ rest)
            end
          else None).
  rewrite Hx.
  destruct d as [|y d].
  - change ("" ++ rest)%string with rest.
    assert (Hn : match_here (Plus cls :: Lit c :: p) rest = None).
    { destruct rest as [|z rest]; [reflexivity|].
      simpl. now rewrite Hrest. }
    rewrite Hn. now destruct (match_here (Lit c :: p) rest).
  - rewrite IH by (congruence || assumption).
    destruct (match_here (Lit c :: p) rest) as [r|] eqn:Hm.
    + reflexivity.
    + simpl in Hall. apply andb_prop in Hall as [Hy _].
      change (match_here (Lit c :: p) (String y d ++ rest))
        with (if Ascii.eqb y c then cons (Tc y) <$> match_here p (d ++ rest)
              else None).
      destruct (Ascii.eqb_spec y c) as [->|_]; [congruence|]. reflexivity.
Qed.

(** What a [+] has matched is a run of its class. *)
Lemma plus_inv cls p s r :
  match_here (Plus cls :: p) s = Some r ->
  exists d rest r',
    s = d ++ rest /\ d ≠ "" /\ all_in cls d = true /\
    match_here p rest = Some r' /\ r = (toks d ++ r')%list.
Proof.
  revert r. induction s as [|x s IH]; intros r H; [discriminate|].
  change (match_here (Plus cls :: p) (String x s))
    with (if cls x then
            match match_here (Plus cls :: p) s with
            | Some r => Some (Tc x :: r)
            | None => cons (Tc x) <$> match_here p s
            end
          else None) in H.
  destruct (cls x) eqn:Hx; [|discriminate].
  destruct (match_here (Plus cls :: p) s) as [r0|] eqn:Hm.
  - inversion H; subst r; clear H.
    destruct (IH r0 eq_refl) as (d & rest & r' & -> & Hne & Hall & Hp & ->).
    exists (String x d), rest, r'.
    repeat split; try assumption; try discriminate.
    simpl. now rewrite Hx, Hall.
  - destruct (match_here p s) as [r'|] eqn:Hp; [|discriminate].
    inversion H; subst r; clear H.
    exists (String x ""), s, r'.
    repeat split; try assumption; try discriminate.
    simpl. now rewrite Hx.
Qed.

Lemma lit_inv c p s r :
  match_here (Lit c :: p) s = Some r ->
  exists s' r', s = String c s' /\ match_here p s' = Some r' /\ r = Tc c :: r'.
Proof.
  destruct s as [|x s]; [discriminate|]. simpl.
  destruct (Ascii.eqb_spec x c) as [->|]; [|discriminate].
  destruct (match_here p s) as [r'|] eqn:Hm; [|discriminate].
  intros H. inversion H. exists s, r'. auto.
Qed.

Lemma token_unfold d1 d2 rest :
  range_token d1 d2 ++ "." ++ rest
  = String "[" (d1 ++ String "-" (d2 ++ String "]" (String "." rest))).
Proof.
  unfold range_token. sapp. rewrite append_assoc. sapp.
  rewrite append_assoc. reflexivity.
Qed.

(** The pattern matches at the start of [s] exactly when [s] begins with a
    token and a dot. *)
Lemma match_token s d1 d2 rest :
  token_prefix s d1 d2 rest ->
  match_here frame_range_re s = Some (token_toks d1 d2).
Proof.
  intros (-> & [Hn1 Hd1] & [Hn2 Hd2]).
  unfold frame_range_re, range_token, token_toks.
  change (match_here (GOpen :: ?p) ?s) with (cons Topen <$> match_here p s).
  change (("[" ++ d1 ++ "-" ++ d2 ++ "]") ++ "." ++ rest)
    with (String "[" ((d1 ++ "-" ++ d2 ++ "]") ++ "." ++ rest)).
  change (match_here (Lit "[" :: ?p) (String "[" ?s))
    with (cons (Tc "[") <$> match_here p s).
  rewrite append_assoc.
  rewrite (plus_takes_run is_digit "-" _ d1) by (reflexivity || assumption).
  change (("-" ++ d2 ++ "]") ++ "." ++ rest)
    with (String "-" ((d2 ++ "]") ++ "." ++ rest)).
  change (match_here (Lit "-" :: ?p) (String "-" ?s))
    with (cons (Tc "-") <$> match_here p s).
  rewrite append_assoc.
  rewrite (plus_takes_run is_digit "]" _ d2) by (reflexivity || assumption).
  reflexivity.
Qed.

Lemma match_token_inv s r :
  match_here frame_range_re s = Some r -> starts_with_token s.
Proof.
  unfold frame_range_re.
  change (match_here (GOpen :: ?p) ?s) with (cons Topen <$> match_here p s).
  destruct (match_here _ s) as [r1|] eqn:H1; [|discriminate]. intros _.
  apply lit_inv in H1 as (s1 & r2 & -> & H2 & _).
  apply plus_inv in H2 as (d1 & s2 & r3 & -> & Hn1 & Hd1 & H3 & _).
  apply lit_inv in H3 as (s3 & r4 & -> & H4 & _).
  apply plus_inv in H4 as (d2 & s4 & r5 & -> & Hn2 & Hd2 & H5 & _).
  apply lit_inv in H5 as (s5 & r6 & -> & H6 & _).
  change (match_here (GClose :: ?p) ?s) with (cons Tclose <$> match_here p s)
    in H6.
  destruct (match_here _ s5) as [r7|] eqn:H7; [|discriminate].
  apply lit_inv in H7 as (s6 & r8 & -> & _ & _).
  exists d1, d2, s6. split; [|split; split; assumption].
  now rewrite token_unfold.
Qed.

Lemma chars_toks d r : chars (toks d ++ r) = d ++ chars r.
Proof. induction d as [|x d IH]; simpl; [reflexivity|]. now rewrite IH. Qed.

Lemma until_close_toks d r :
  until_close (toks d ++ r) = (toks d ++ until_close r)%list.
Proof. induction d as [|x d IH]; simpl; [reflexivity|]. now rewrite IH. Qed.

Lemma drop_last_snoc s c : Str.drop_last (s ++ String c "") = s.
Proof.
  induction s as [|x s IH]; [reflexivity|].
  simpl. rewrite IH. destruct s; reflexivity.
Qed.

(** The group of a match is the token, and the slice takes its brackets
    off. *)
Lemma group1_token d1 d2 :
  Str.slice_1_m1 (group1 (token_toks d1 d2)) = d1 ++ "-" ++ d2.
Proof.
  unfold group1, token_toks. simpl.
  rewrite until_close_toks. simpl. rewrite until_close_toks. simpl.
  rewrite chars_toks. simpl. rewrite chars_toks. simpl.
  unfold Str.slice_1_m1. simpl.
  replace (d1 ++ String "-" (d2 ++ "]"))
    with ((d1 ++ String "-" d2) ++ "]") by (now rewrite append_assoc).
  apply drop_last_snoc.
Qed.


(** [search] returns the match of the first position that has one. *)
Lemma search_first p pre post r :
  match_here p post = Some r ->
  (forall pre' post', pre ++ post = pre' ++ post' ->
     (String.length pre' < String.length pre)%nat ->
     match_here p post' = None) ->
  search p (pre ++ post) = Some r.
Proof.
  induction pre as [|x pre IH]; intros Hm Hmin.
  - rewrite append_nil_l. destruct post; simpl; now rewrite Hm.
  - rewrite append_cons.
    change (search p (String x (pre ++ post)))
      with (match match_here p (String x (pre ++ post)) with
            | Some r => Some r
            | None => search p (pre ++ post)
            end).
    rewrite (Hmin "" (String x (pre ++ post)) eq_refl) by (simpl; lia).
    apply IH; [exact Hm|].
    intros pre' post' Heq Hlen.
    apply (Hmin (String x pre') post').
    + rewrite !append_cons. now rewrite Heq.
    + simpl. lia.
Qed.
End FrameRange.

Lemma match_here_none_iff s :
  Re.match_here Re.frame_range_re s = None <-> ~ starts_with_token s.
Proof.
  split.
  - intros H (d1 & d2 & rest & Ht).
    rewrite (match_token s d1 d2 rest Ht) in H. discriminate.
  - intros H. destruct (Re.match_here Re.frame_range_re s) eqn:Hm; [|reflexivity].
    exfalso. apply H. now apply (match_token_inv s l).
Qed.

(** What the frame-range step stores for a string: the numbers of the
    leftmost token, or nothing. *)
Lemma frame_range_leftmost fp pre d1 d2 rest :
  fp = pre ++ range_token d1 d2 ++ "." ++ rest ->
  is_number d1 -> is_number d2 ->
  (forall pre' post', fp = pre' ++ post' ->
     (String.length pre' < String.length pre)%nat ->
     ~ starts_with_token post') ->
  Str.slice_1_m1 <$> (Re.group1 <$> Re.search Re.frame_range_re fp)
  = Some (d1 ++ "-" ++ d2).
Proof.
  intros -> H1 H2 Hmin.
  rewrite (search_first Re.frame_range_re pre _ (token_toks d1 d2)).
  - simpl. now rewrite group1_token.
  - apply (match_token _ d1 d2 rest). now split.
  - intros pre' post' Heq Hlen. apply match_here_none_iff.
    now apply (Hmin pre' post').
Qed.






(** ** The name and the place of the movie *)

Section Paths.
Variable c : ascii.

Lemma rfind_ge s : -1 <= Str.rfind c s.
Proof.
  induction s as [|x s IH]; simpl; [lia|].
  destruct (0 <=? Str.rfind c s) eqn:H; [lia|].
  destruct (Ascii.eqb x c); lia.
Qed.

Lemma rfind_none s : Str.contains c s = false -> Str.rfind c s = -1.
Proof.
  induction s as [|x s IH]; simpl; [reflexivity|].
  intros H. apply orb_false_elim in H as [Hx Hs].
  rewrite (IH Hs), Hx. reflexivity.
Qed.

Lemma endswith_cons x s :
  s ≠ "" -> Str.endswith c (String x s) = Str.endswith c s.
Proof. destruct s; [congruence|reflexivity]. Qed.

(** After a head that ends with [c] and before a tail without [c], the
    last [c] is the last character of the head. *)
Lemma rfind_app_end h t :
  Str.contains c t = false -> Str.endswith c h = true ->
  Str.rfind c (h ++ t) + 1 = Z.of_nat (String.length h).
Proof.
  intros Ht. induction h as [|x h IH]; intros Hh; [discriminate|].
  rewrite append_cons. simpl Str.rfind. simpl String.length.
  destruct h as [|y h].
  - rewrite append_nil_l, (rfind_none t Ht). simpl in Hh. rewrite Hh.
    reflexivity.
  - rewrite endswith_cons in Hh by discriminate.
    specialize (IH Hh).
    assert (0 <= Str.rfind c (String y h ++ t)).
    { simpl String.length in IH. lia. }
    destruct (0 <=? Str.rfind c (String y h ++ t)) eqn:Hle; [|lia].
    lia.
Qed.

Lemma take_app_length h t : Str.take (String.length h) (h ++ t) = h.
Proof.
  induction h as [|x h IH]; [now destruct t|].
  rewrite append_cons. simpl. now rewrite IH.
Qed.

Lemma drop_app_length h t : Str.drop (String.length h) (h ++ t) = t.
Proof.
  induction h as [|x h IH]; [now destruct t|].
  rewrite append_cons. simpl. exact IH.
Qed.

(** Every string is a head that is empty or ends with [c], then a tail
    without [c]; the cut is just after the last [c]. *)
Lemma rfind_cut p :
  exists h t,
    p = h ++ t /\ (h = "" \/ Str.endswith c h = true) /\
    Str.contains c t = false /\
    Z.to_nat (Str.rfind c p + 1) = String.length h.
Proof.
  induction p as [|x p IH].
  - exists "", "". repeat split; auto.
  - destruct IH as (h & t & -> & Hh & Ht & Hi).
    destruct Hh as [->|Hend].
    + rewrite append_nil_l in *.
      destruct (Ascii.eqb x c) eqn:Hx.
      * exists (String x ""), t.
        split; [reflexivity|]. split; [right; exact Hx|].
        split; [exact Ht|].
        simpl. rewrite (rfind_none t Ht), Hx. reflexivity.
      * exists "", (String x t).
        split; [reflexivity|]. split; [now left|].
        split; [simpl; now rewrite Hx, Ht|].
        simpl. rewrite (rfind_none t Ht), Hx. reflexivity.
    + assert (Hne : h ≠ "") by (intros ->; discriminate).
      exists (String x h), t.
      split; [reflexivity|].
      split; [right; now rewrite endswith_cons|].
      split; [exact Ht|].
      pose proof (rfind_app_end (String x h) t Ht) as H.
      rewrite endswith_cons in H by exact Hne.
      specialize (H Hend). rewrite append_cons in H. lia.
Qed.

Lemma contains_app a b :
  Str.contains c (a ++ b) = Str.contains c a || Str.contains c b.
Proof.
  induction a as [|x a IH]; [reflexivity|].
  rewrite append_cons. simpl. rewrite IH. now rewrite orb_assoc.
Qed.

Lemma contains_split_first d s :
  Str.contains c s = false -> Str.contains c (Str.split_first d s) = false.
Proof.
  induction s as [|x s IH]; simpl; [reflexivity|].
  intros H. apply orb_false_elim in H as [Hx Hs].
  destruct (Ascii.eqb x d); [reflexivity|].
  simpl. now rewrite Hx, IH.
Qed.

Lemma startswith_contains s :
  Str.startswith c s = true -> Str.contains c s = true.
Proof. destruct s as [|x s]; simpl; [discriminate|]. now intros ->. Qed.

Lemma endswith_snoc a : Str.endswith c (a ++ String c "") = true.
Proof.
  induction a as [|x a IH]; [simpl; apply Ascii.eqb_refl|].
  rewrite append_cons, endswith_cons; [exact IH|].
  destruct a; discriminate.
Qed.

Lemma all_char_snoc a :
  Str.all_char c (a ++ String c "") = Str.all_char c a.
Proof.
  induction a as [|x a IH].
  - simpl. now rewrite Ascii.eqb_refl.
  - rewrite append_cons. simpl. now rewrite IH.
Qed.

Lemma all_char_endswith a :
  a ≠ "" -> Str.all_char c a = true -> Str.endswith c a = true.
Proof.
  induction a as [|x a IH]; [congruence|].
  intros _ H. simpl in H. apply andb_prop in H as [Hx Ha].
  destruct a as [|y a]; [exact Hx|].
  rewrite endswith_cons by discriminate. apply IH; [discriminate|exact Ha].
Qed.

Lemma rstrip_all_char a : Str.all_char c a = true -> Str.rstrip c a = "".
Proof.
  induction a as [|x a IH]; [reflexivity|].
  simpl. intros H. apply andb_prop in H as [Hx Ha].
  now rewrite (IH Ha), Hx.
Qed.

Lemma rstrip_not_all a :
  Str.all_char c a = false ->
  Str.rstrip c a ≠ "" /\ Str.endswith c (Str.rstrip c a) = false.
Proof.
  induction a as [|x a IH]; [discriminate|].
  simpl. intros H.
  destruct (Str.all_char c a) eqn:Ha.
  - rewrite andb_true_r in H. rewrite (rstrip_all_char a Ha), H.
    split; [discriminate|]. simpl. exact H.
  - destruct (IH eq_refl) as [Hne Hend].
    destruct (Str.rstrip c a) as [|y r] eqn:Hr; [congruence|].
    split; [discriminate|].
    rewrite endswith_cons by discriminate. exact Hend.
Qed.

Lemma rstrip_id a : Str.endswith c a = false -> Str.rstrip c a = a.
Proof.
  induction a as [|x a IH]; [reflexivity|].
  intros H. simpl.
  destruct a as [|y a].
  - simpl in *. now rewrite H.
  - rewrite endswith_cons in H by discriminate.
    rewrite (IH H). reflexivity.
Qed.

Lemma rstrip_snoc a : Str.rstrip c (a ++ String c "") = Str.rstrip c a.
Proof.
  induction a as [|x a IH].
  - simpl. now rewrite Ascii.eqb_refl.
  - rewrite append_cons. simpl. now rewrite IH.
Qed.
End Paths.

Lemma split_app h t :
  h = "" \/ Str.endswith posixpath.sep h = true ->
  Str.contains posixpath.sep t = false ->
  posixpath.split (h ++ t) = (norm_head h, t).
Proof.
  intros Hh Ht. unfold posixpath.split.
  assert (Hi : Z.to_nat (Str.rfind posixpath.sep (h ++ t) + 1)
               = String.length h).
  { destruct Hh as [->|Hend].
    - rewrite append_nil_l, (rfind_none _ t Ht). reflexivity.
    - rewrite (rfind_app_end _ h t Ht Hend). lia. }
  rewrite Hi, take_app_length, drop_app_length. reflexivity.
Qed.

Lemma split_cut p :
  exists h t,
    p = h ++ t /\ (h = "" \/ Str.endswith posixpath.sep h = true) /\
    Str.contains posixpath.sep t = false /\
    posixpath.split p = (norm_head h, t).
Proof.
  destruct (rfind_cut posixpath.sep p) as (h & t & -> & Hh & Ht & _).
  exists h, t. split; [reflexivity|]. split; [exact Hh|].
  split; [exact Ht|]. now apply split_app.
Qed.

(** The movie is put in the directory of [path], under its own name. *)
Lemma quicktime_path_split p :
  posixpath.split (quicktime_path_of p)
  = (posixpath.dirname p, quicktime_name_of p).
Proof.
  destruct (split_cut p) as (h & t & Hp & Hh & Ht & Hsplit).
  unfold quicktime_path_of, quicktime_name_of, posixpath.dirname.
  rewrite Hsplit. cbn [fst snd].
  set (n := Str.split_first "." t ++ ".mov").
  assert (Hn : Str.contains posixpath.sep n = false).
  { unfold n. rewrite contains_app, contains_split_first by exact Ht.
    reflexivity. }
  assert (Hs : Str.startswith posixpath.sep n = false).
  { destruct (Str.startswith posixpath.sep n) eqn:E; [|reflexivity].
    apply startswith_contains in E. congruence. }
  unfold posixpath.join. rewrite Hs.
  destruct Hh as [->|Hend].
  - change (norm_head "") with "". cbn [String.eqb orb].
    rewrite append_nil_l.
    rewrite <- (append_nil_l n) at 1. now rewrite split_app by auto.
  - assert (Hne : h ≠ "") by (intros ->; discriminate).
    apply String.eqb_neq in Hne.
    destruct (Str.all_char posixpath.sep h) eqn:Hall.
    + assert (Hnh : norm_head h = h).
      { unfold norm_head. now rewrite Hne, Hall. }
      rewrite Hnh, Hne, Hend. cbn [orb].
      rewrite split_app by auto. now rewrite Hnh.
    + assert (Hnh : norm_head h = Str.rstrip posixpath.sep h).
      { unfold norm_head. now rewrite Hne, Hall. }
      rewrite Hnh.
      destruct (rstrip_not_all posixpath.sep h Hall) as [Hr Hre].
      set (a := Str.rstrip posixpath.sep h) in *.
      apply String.eqb_neq in Hr. rewrite Hr, Hre. cbn [orb].
      replace (a ++ String posixpath.sep n)
        with ((a ++ String posixpath.sep "") ++ n)
        by (now rewrite append_assoc).
      rewrite split_app; [|right; apply endswith_snoc|exact Hn].
      f_equal. unfold norm_head.
      rewrite all_char_snoc, rstrip_snoc.
      assert (Hna : Str.all_char posixpath.sep a = false).
      { destruct (Str.all_char posixpath.sep a) eqn:E; [|reflexivity].
        apply all_char_endswith in E; [congruence|].
        now apply String.eqb_neq. }
      rewrite Hna.
      assert (Hsn : String.eqb (a ++ String posixpath.sep "") "" = false).
      { apply String.eqb_neq. destruct a; discriminate. }
      rewrite Hsn. cbn [negb andb]. now apply rstrip_id.
Qed.

Lemma run_transcode_name :
  exists c,
    In (Transcode c) (st_log Run.st1) /\
    t_display_name c = VStr "shot010.mov".
Proof.
  vm_compute. eexists. split; [right; left; reflexivity|reflexivity].
Qed.

(** C8, as the specification states it, fails: for the path
    [/jobs/sh/shot010.%04d.exr] the basename without its extension is
    [shot010.%04d], and the movie is named [shot010.mov]. *)
Lemma quicktime_name_is_not_basename_without_extension :
  properties (st_item Run.st0) !! "path"
    = Some (VStr "/jobs/sh/shot010.%04d.exr") /\
  publish Fixture.B0 Fixture.E0 VNone Run.st0 = (Ok tt, Run.st1) /\
  spec_quicktime_name "/jobs/sh/shot010.%04d.exr" = "shot010.%04d.mov" /\
  ~ names_movie_by_extension (st_log Run.st1) "/jobs/sh/shot010.%04d.exr".
Proof.
  split; [reflexivity|]. split; [exact run_publish_ok|].
  split; [reflexivity|].
  intros H. destruct run_transcode_name as (c & Hin & Hname).
  specialize (H c Hin). rewrite Hname in H.
  change (spec_quicktime_name "/jobs/sh/shot010.%04d.exr")
    with "shot010.%04d.mov" in H.
  clear Hin. discriminate H.
Qed.

(** C8, amended. When [publish] succeeds, ["path"] is a string; the name of
    the movie is the part of the basename of [path] that comes before its
    first dot, followed by [.mov]; the destination is that name in the
    directory of [path]; and the source given to the transcoder is the
    ["file_path"] property, or [path] when the item has none. *)
Theorem quicktime_name_and_place
    (B : Builtins) (E : Engine) (settings : pyval) (st st1 : state) :
  publish B E settings st = (Ok tt, st1) ->
  exists p c,
    properties (st_item st) !! "path" = Some (VStr p) /\
    In (Transcode c) (st_log st1) /\
    t_display_name c
      = VStr (Str.split_first "." (posixpath.basename p) ++ ".mov") /\
    t_dst_path c = VStr (quicktime_path_of p) /\
    posixpath.dirname (quicktime_path_of p) = posixpath.dirname p /\
    posixpath.basename (quicktime_path_of p) = quicktime_name_of p /\
    t_src_path c = dict_get (properties (st_item st)) "file_path" (VStr p).
Proof.
  intros H.
  apply publish_inv in H
    as (l & version & p & c & j & job_id & dst & files & q & Hb & _ & Hpath
        & Hlog & _ & _ & Hsrc & Hdst & Hname & _).
  apply build_ver_data_inv in Hb as (_ & _ & _ & _ & Hp & Hf & _).
  exists p, c.
  assert (Hprop : properties (st_item st) !! "path" = Some (VStr p)).
  { rewrite Hpath in Hp. unfold dict_get in Hp.
    destruct (properties (st_item st) !! "path"); [congruence|discriminate]. }
  split; [exact Hprop|].
  split.
  { rewrite Hlog. apply in_or_app. right. right. now left. }
  split; [exact Hname|]. split; [exact Hdst|].
  unfold posixpath.dirname at 1, posixpath.basename.
  rewrite quicktime_path_split. cbn [fst snd].
  split; [reflexivity|]. split; [reflexivity|].
  now rewrite Hsrc, Hf, Hpath.
Qed.

Lemma quicktime_name_and_place_witness :
  exists p c,
    properties (st_item Run.st0) !! "path" = Some (VStr p) /\
    In (Transcode c) (st_log Run.st1) /\
    t_display_name c
      = VStr (Str.split_first "." (posixpath.basename p) ++ ".mov") /\
    t_dst_path c = VStr (quicktime_path_of p) /\
    posixpath.dirname (quicktime_path_of p) = posixpath.dirname p /\
    posixpath.basename (quicktime_path_of p) = quicktime_name_of p /\
    t_src_path c = dict_get (properties (st_item Run.st0)) "file_path" (VStr p).
Proof.
  apply (quicktime_name_and_place Fixture.B0 Fixture.E0 VNone Run.st0 Run.st1).
  vm_compute. reflexivity.
Defined.

(** Where the two names agree: a basename with one dot, not at its
    start. *)
Lemma split_first_one_dot n e :
  Str.contains "." n = false -> Str.split_first "." (n ++ "." ++ e) = n.
Proof.
  induction n as [|x n IH]; intros H; [reflexivity|].
  simpl in H. apply orb_false_elim in H as [Hx Hn].
  rewrite append_cons. simpl. now rewrite Hx, IH.
Qed.

Lemma all_char_contains ch s :
  s ≠ "" -> Str.contains ch s = false -> Str.all_char ch s = false.
Proof.
  destruct s as [|x s]; [congruence|]. simpl.
  intros _ H. apply orb_false_elim in H as [-> _]. reflexivity.
Qed.

Lemma splitext_one_dot n e :
  n ≠ "" ->
  Str.contains "." n = false -> Str.contains "." e = false ->
  Str.contains "/" n = false -> Str.contains "/" e = false ->
  posixpath.splitext (n ++ "." ++ e) = (n, "." ++ e).
Proof.
  intros Hne Hdn Hde Hsn Hse. unfold posixpath.splitext.
  unfold posixpath.sep, posixpath.extsep.
  assert (Hsep : Str.rfind "/" (n ++ "." ++ e) = -1).
  { apply rfind_none. rewrite contains_app, Hsn.
    rewrite append_cons, append_nil_l. simpl. exact Hse. }
  assert (Hdot : Str.rfind "." (n ++ "." ++ e)
                 = Z.of_nat (String.length n)).
  { pose proof (rfind_app_end "." (n ++ ".") e Hde (endswith_snoc "." n)) as H.
    rewrite append_assoc in H.
    replace (String.length (n ++ ".")) with (S (String.length n)) in H.
    - lia.
    - clear. induction n as [|x n IH]; [reflexivity|].
      rewrite append_cons. simpl. now rewrite <- IH. }
  rewrite Hsep, Hdot.
  replace (Z.to_nat (Z.of_nat (String.length n) - (-1 + 1)))
    with (String.length n) by lia.
  replace (Z.to_nat (Z.of_nat (String.length n))) with (String.length n) by lia.
  change (Z.to_nat (-1 + 1)) with 0%nat.
  change (Str.drop 0 (n ++ "." ++ e)) with (n ++ "." ++ e).
  rewrite take_app_length, drop_app_length.
  rewrite (all_char_contains _ n Hne Hdn).
  assert (Hlt : (-1 <? Z.of_nat (String.length n)) = true)
    by (apply Z.ltb_lt; lia).
  now rewrite Hlt.
Qed.

Lemma quicktime_name_one_dot p n e :
  posixpath.basename p = n ++ "." ++ e ->
  n ≠ "" -> Str.contains "." n = false -> Str.contains "." e = false ->
  quicktime_name_of p = spec_quicktime_name p.
Proof.
  intros Hb Hne Hdn Hde.
  destruct (split_cut p) as (h & t & _ & _ & Ht & Hsplit).
  unfold quicktime_name_of, spec_quicktime_name.
  unfold posixpath.basename in *. rewrite Hsplit in *. cbn [snd] in *.
  subst t. rewrite contains_app in Ht.
  apply orb_false_elim in Ht as [Hsn Hse].
  rewrite append_cons, append_nil_l in Hse. simpl in Hse.
  rewrite split_first_one_dot by exact Hdn.
  now rewrite splitext_one_dot.
Qed.

(** * More of the hook *)

(** ** The metadata that reaches [sg.create] *)

Ltac break_match H :=
  match type of H with
  | context [match ?x with _ => _ end] =>
      match x with
      | context [match _ with _ => _ end] => fail 1
      | _ => destruct x eqn:?
      end
  end.

(** The fields of lines 148 to 157 are in every VersionData that the
    builder returns, with the values of the item: no later step writes to
    them.  An item without ["path"] gets [None] as its path to frames. *)
Theorem base_fields_kept (B : Builtins) (it : Item) (l : Locals) :
  build_ver_data B it = Ok l ->
  ver_data l !! "project" = Some (project (context it)) /\
  ver_data l !! "code" = Some (name it) /\
  ver_data l !! "description" = Some (description it) /\
  ver_data l !! "entity" = Some (entity (context it)) /\
  ver_data l !! "sg_task" = Some (task (context it)) /\
  ver_data l !! "sg_path_to_frames"
    = Some (dict_get (properties it) "path" VNone) /\
  ver_data l !! "sg_department" = Some (VStr "Flame").
Proof.
  intros Hb.
  apply build_ver_data_inv in Hb
    as (vd1 & vd2 & vd3 & _ & Hp & _ & H1 & H2 & H3 & H4).
  rewrite Hp in H1.
  repeat split;
    rewrite (set_frames_other B _ _ _ _ H4) by discriminate;
    rewrite (set_frame_range_other _ _ _ _ H3) by discriminate;
    rewrite (set_aspect_ratio_other B _ _ _ _ H2) by discriminate;
    rewrite (set_frame_rate_other B _ _ _ _ H1) by discriminate;
    unfold init_ver_data; by simplify_map_eq.
Qed.

Lemma base_fields_kept_witness :
  exists l,
    build_ver_data Fixture.B0 FramesItem.item5 = Ok l /\
    ver_data l !! "code" = Some (VStr "shot010") /\
    ver_data l !! "sg_path_to_frames" = Some Fixture.seq_path /\
    ver_data l !! "sg_department" = Some (VStr "Flame").
Proof.
  eexists. split; [reflexivity|].
  match goal with
  | |- ver_data ?l !! _ = _ /\ _ =>
      destruct (base_fields_kept Fixture.B0 FramesItem.item5 l eq_refl)
        as (_ & Hc & _ & _ & _ & Hp & Hd)
  end.
  split; [exact Hc|]. split; [exact Hp|exact Hd].
Defined.

(** The builder writes no field outside the fourteen of
    [ver_data_keys]. *)
Theorem ver_data_keys_only (B : Builtins) (it : Item) (l : Locals) (k : string) :
  build_ver_data B it = Ok l ->
  is_Some (ver_data l !! k) -> In k ver_data_keys.
Proof.
  intros Hb [v Hv].
  apply build_ver_data_inv in Hb
    as (vd1 & vd2 & vd3 & _ & _ & _ & H1 & H2 & H3 & H4).
  unfold ver_data_keys.
  repeat match goal with
         | |- In k (?x :: _) =>
             destruct (decide (k = x)) as [->|?]; [now left|right]
         end.
  exfalso.
  rewrite (set_frames_other B _ _ _ _ H4) in Hv by assumption.
  rewrite (set_frame_range_other _ _ _ _ H3) in Hv by assumption.
  rewrite (set_aspect_ratio_other B _ _ _ _ H2) in Hv by assumption.
  rewrite (set_frame_rate_other B _ _ _ _ H1) in Hv by assumption.
  rewrite init_ver_data_fresh in Hv by assumption.
  discriminate.
Qed.

Lemma ver_data_keys_only_witness :
  exists l,
    build_ver_data Fixture.B0 FramesItem.item5 = Ok l /\
    In "frame_count" ver_data_keys.
Proof.
  eexists. split; [reflexivity|].
  eapply (ver_data_keys_only Fixture.B0 FramesItem.item5 _ "frame_count").
  - reflexivity.
  - eexists. reflexivity.
Defined.

Lemma build_ver_data_err_line (B : Builtins) (it : Item) (e : exn) :
  build_ver_data B it = Err e -> In (line e) builder_raise_lines.
Proof.
  intros H.
  unfold build_ver_data, set_frame_rate, set_aspect_ratio, set_frame_range,
    set_frames, mbind, result_bind, rbind, mret, result_ret, at_line in H.
  repeat (break_match H; try discriminate H);
    inversion H; subst; unfold builder_raise_lines; simpl; auto 10.
Qed.

Lemma publish_builder_err
    (B : Builtins) (E : Engine) (settings : pyval) (st : state) (e : exn) :
  build_ver_data B (st_item st) = Err e ->
  publish B E settings st = (Err e, st).
Proof.
  intros Hb. unfold publish.
  rewrite (bind_ok _ _ st (st_item st) st) by reflexivity.
  apply bind_err. unfold lift. now rewrite Hb.
Qed.

(** An exception of the builder is the exception of [publish], and nothing
    has happened by then: no collaborator was called and the item is as it
    was.  It comes from one of the six lines of the builder that can
    raise. *)
Theorem builder_error_leaves_no_trace
    (B : Builtins) (E : Engine) (settings : pyval) (st : state) (e : exn) :
  build_ver_data B (st_item st) = Err e ->
  publish B E settings st = (Err e, st) /\
  In (line e) builder_raise_lines.
Proof.
  intros Hb. split.
  - now apply publish_builder_err.
  - now apply (build_ver_data_err_line B (st_item st)).
Qed.

(** [fps = [24]] is truthy and is no number: [TypeError] at line 163. *)
Lemma builder_error_leaves_no_trace_witness :
  publish Fixture.B0 Fixture.E0 VNone (Fixture.start BadRateItem.item)
  = (Err (Raise TypeError 163), Fixture.start BadRateItem.item) /\
  In 163%nat builder_raise_lines.
Proof.
  apply (builder_error_leaves_no_trace Fixture.B0 Fixture.E0 VNone
           (Fixture.start BadRateItem.item) (Raise TypeError 163)).
  reflexivity.
Defined.

(** ** The frame range, the other way round *)

Lemma search_some p s r :
  Re.search p s = Some r ->
  exists pre post, s = pre ++ post /\ Re.match_here p post = Some r.
Proof.
  induction s as [|x s IH].
  - simpl. destruct (Re.match_here p "") eqn:Hm; [|discriminate].
    intros H. inversion H; subst. now exists "", "".
  - change (Re.search p (String x s))
      with (match Re.match_here p (String x s) with
            | Some r => Some r
            | None => Re.search p s
            end).
    destruct (Re.match_here p (String x s)) eqn:Hm.
    + intros H. inversion H; subst. now exists "", (String x s).
    + intros H. destruct (IH H) as (pre & post & -> & Hp).
      now exists (String x pre), post.
Qed.

(** What the builder has under [frame_range], read off the search. *)
Lemma build_frame_range_lookup (B : Builtins) (it : Item) (l : Locals) :
  build_ver_data B it = Ok l ->
  exists fp,
    dict_get (properties it) "file_path"
      (dict_get (properties it) "path" VNone) = VStr fp /\
    ver_data l !! "frame_range"
    = (fun m => VStr (Str.slice_1_m1 (Re.group1 m)))
        <$> Re.search Re.frame_range_re fp.
Proof.
  intros Hb.
  apply build_ver_data_inv in Hb
    as (vd1 & vd2 & vd3 & _ & Hp & Hf & H1 & H2 & H3 & H4).
  rewrite Hp in Hf.
  destruct (file_path l) as [| | | |fp| |] eqn:Hfp;
    try (unfold set_frame_range in H3; simpl in H3; discriminate H3).
  exists fp. split; [now rewrite <- Hf|].
  rewrite set_frame_range_str in H3. inversion H3 as [Hvd3]; clear H3.
  rewrite (set_frames_other B _ _ _ _ H4) by discriminate.
  assert (Hfresh : vd2 !! "frame_range" = None).
  { rewrite (set_aspect_ratio_other B _ _ _ _ H2) by discriminate.
    rewrite (set_frame_rate_other B _ _ _ _ H1) by discriminate.
    now apply init_ver_data_fresh. }
  destruct (Re.search Re.frame_range_re fp) as [m|]; simpl; rewrite <- Hvd3.
  - apply lookup_insert_eq.
  - exact Hfresh.
Qed.

(** A [frame_range] in the VersionData is always two numbers joined by a
    dash, without brackets, and the file path holds them in brackets before
    a dot. *)
Theorem frame_range_is_a_token_of_the_path
    (B : Builtins) (it : Item) (l : Locals) (v : pyval) :
  build_ver_data B it = Ok l ->
  ver_data l !! "frame_range" = Some v ->
  exists pre d1 d2 rest,
    dict_get (properties it) "file_path"
      (dict_get (properties it) "path" VNone)
    = VStr (pre ++ range_token d1 d2 ++ "." ++ rest) /\
    is_number d1 /\ is_number d2 /\
    v = VStr (d1 ++ "-" ++ d2).
Proof.
  intros Hb Hv.
  destruct (build_frame_range_lookup B it l Hb) as (fp & Hfp & Hl).
  rewrite Hl in Hv.
  destruct (Re.search Re.frame_range_re fp) as [m|] eqn:Hs; [|discriminate].
  simpl in Hv. inversion Hv; subst v; clear Hv.
  apply search_some in Hs as (pre & post & -> & Hm).
  destruct (match_token_inv post m Hm) as (d1 & d2 & rest & Ht).
  rewrite (match_token post d1 d2 rest Ht) in Hm.
  inversion Hm; subst m.
  destruct Ht as (-> & Hd1 & Hd2).
  exists pre, d1, d2, rest.
  split; [exact Hfp|]. split; [exact Hd1|]. split; [exact Hd2|].
  now rewrite group1_token.
Qed.

Lemma frame_range_is_a_token_of_the_path_witness :
  exists l pre d1 d2 rest,
    build_ver_data Fixture.B0 RangeItem.item4 = Ok l /\
    VStr "shot010.[1001-1050].exr"
    = VStr (pre ++ range_token d1 d2 ++ "." ++ rest) /\
    is_number d1 /\ is_number d2 /\
    VStr "1001-1050" = VStr (d1 ++ "-" ++ d2).
Proof.
  eexists.
  match goal with
  | |- exists pre d1 d2 rest, build_ver_data _ _ = Ok ?l /\ _ =>
      destruct (frame_range_is_a_token_of_the_path Fixture.B0 RangeItem.item4
                  l (VStr "1001-1050") eq_refl eq_refl)
        as (pre & d1 & d2 & rest & H)
  end.
  exists pre, d1, d2, rest. split; [reflexivity|exact H].
Defined.

Lemma contains_split ch pre post pre' post' :
  pre ++ post = pre' ++ post' ->
  (String.length pre' < String.length pre)%nat ->
  Str.contains ch pre = false ->
  exists x s, post' = String x s /\ Ascii.eqb x ch = false.
Proof.
  revert pre'. induction pre as [|y pre IH]; intros pre' Heq Hlen Hc.
  - simpl in Hlen. lia.
  - simpl in Hc. apply orb_false_elim in Hc as [Hy Hc].
    destruct pre' as [|z pre'].
    + rewrite append_nil_l, append_cons in Heq. subst post'.
      now exists y, (pre ++ post).
    + rewrite !append_cons in Heq. injection Heq as _ Heq.
      apply (IH pre' Heq); [simpl in Hlen; lia|exact Hc].
Qed.

(** When no ["["] comes before a token, that token is the one stored,
    whatever comes after it, other tokens included. *)
Theorem first_token_wins
    (B : Builtins) (it : Item) (l : Locals) (pre d1 d2 rest : string) :
  build_ver_data B it = Ok l ->
  dict_get (properties it) "file_path"
    (dict_get (properties it) "path" VNone)
  = VStr (pre ++ range_token d1 d2 ++ "." ++ rest) ->
  Str.contains "[" pre = false ->
  is_number d1 -> is_number d2 ->
  ver_data l !! "frame_range" = Some (VStr (d1 ++ "-" ++ d2)).
Proof.
  intros Hb Hfp Hpre Hd1 Hd2.
  destruct (build_frame_range_lookup B it l Hb) as (fp & Hfp' & Hl).
  rewrite Hfp in Hfp'. inversion Hfp'; subst fp; clear Hfp'.
  rewrite Hl.
  assert (H : Str.slice_1_m1
                 <$> (Re.group1
                        <$> Re.search Re.frame_range_re
                              (pre ++ range_token d1 d2 ++ "." ++ rest))
               = Some (d1 ++ "-" ++ d2)).
  { apply (frame_range_leftmost _ pre d1 d2 rest eq_refl Hd1 Hd2).
    intros pre' post' Heq Hlen (e1 & e2 & r & Ht & _).
    destruct (contains_split "[" _ _ _ _ Heq Hlen Hpre) as (x & s & -> & Hx).
    rewrite token_unfold in Ht. injection Ht as -> _.
    discriminate Hx. }
  destruct (Re.search Re.frame_range_re
              (pre ++ range_token d1 d2 ++ "." ++ rest)) as [m|];
    simpl in H; [|discriminate H].
  simpl. now inversion H.
Qed.

Lemma first_token_wins_witness :
  exists l,
    build_ver_data Fixture.B0 TwoTokensItem.item = Ok l /\
    ver_data l !! "frame_range" = Some (VStr ("1" ++ "-" ++ "5")).
Proof.
  eexists. split; [reflexivity|].
  apply (first_token_wins Fixture.B0 TwoTokensItem.item _
           "sh010." "1" "5" "v2.[7-9].exr").
  - reflexivity.
  - reflexivity.
  - reflexivity.
  - split; [discriminate|reflexivity].
  - split; [discriminate|reflexivity].
Defined.

(** ** The frames step on values that are no numbers *)

(** When [sourceIn] and [sourceOut] are both there and [sourceOut] is no
    number ([None], a string, a list, a dictionary), line 181 raises
    [TypeError]; if the builder gets that far, [publish] ends with that
    exception and has done nothing. *)
Theorem source_out_not_a_number
    (B : Builtins) (E : Engine) (settings : pyval) (st : state)
    (a vd1 vd2 : gmap string pyval) (v : pyval) (fp : string) :
  dict_get (properties (st_item st)) "assetInfo" (VDict ∅) = VDict a ->
  dict_has a "sourceIn" = true ->
  a !! "sourceOut" = Some v -> as_num v = None ->
  set_frame_rate B a
    (init_ver_data (st_item st)
       (dict_get (properties (st_item st)) "path" VNone)) = Ok vd1 ->
  set_aspect_ratio B a vd1 = Ok vd2 ->
  dict_get (properties (st_item st)) "file_path"
    (dict_get (properties (st_item st)) "path" VNone) = VStr fp ->
  publish B E settings st = (Err (Raise TypeError 181), st).
Proof.
  intros Ha Hin Hout Hnum H1 H2 Hfp.
  apply publish_builder_err.
  unfold build_ver_data. rewrite Ha.
  unfold mbind, result_bind. cbn [at_line as_dict rbind].
  rewrite H1. cbn [rbind]. rewrite H2. cbn [rbind].
  rewrite Hfp, set_frame_range_str. cbn [rbind].
  unfold set_frames, dict_has in *. rewrite Hout.
  destruct (a !! "sourceIn"); [|discriminate Hin]. cbn [andb].
  unfold dict_item, dict_get. rewrite Hout.
  unfold py_sub. rewrite Hnum. reflexivity.
Qed.

Lemma source_out_not_a_number_witness :
  publish Fixture.B0 Fixture.E0 VNone (Fixture.start BadFramesItem.item)
  = (Err (Raise TypeError 181), Fixture.start BadFramesItem.item).
Proof.
  eapply (source_out_not_a_number Fixture.B0 Fixture.E0 VNone
            (Fixture.start BadFramesItem.item) BadFramesItem.asset _ _
            (VStr "1051")); reflexivity.
Defined.

(** ** What [publish] leaves behind, whatever its outcome *)

Ltac run_publish H :=
  unfold publish, generate_quicktime, get_item, lift, call_sg_create,
    call_transcode, call_job, props_set, props_get, mbind, M_bind, mret,
    M_ret, at_line, record in H;
  repeat (break_match H; simpl in H);
  inversion H; subst; clear H; simpl.

(** [publish] writes to four properties of the item at most, ["Version"],
    ["quicktime_name"], ["quicktime_path"] and ["quicktime_job"]; every
    other property, and the name, the description and the context of the
    item, are as they were, whether it returns or raises. *)
Theorem publish_touches_four_properties
    (B : Builtins) (E : Engine) (settings : pyval) (st st' : state)
    (r : result unit) :
  publish B E settings st = (r, st') ->
  name (st_item st') = name (st_item st) /\
  description (st_item st') = description (st_item st) /\
  context (st_item st') = context (st_item st) /\
  forall k, k ≠ "Version" -> k ≠ "quicktime_name" -> k ≠ "quicktime_path" ->
    k ≠ "quicktime_job" ->
    properties (st_item st') !! k = properties (st_item st) !! k.
Proof.
  intros H. run_publish H;
    (repeat split; try reflexivity;
     intros k H1 H2 H3 H4;
     rewrite ?lookup_insert_ne by congruence; reflexivity).
Qed.

Lemma publish_touches_four_properties_witness :
  properties (st_item Run.st1) !! "file_path"
  = properties (st_item Run.st0) !! "file_path".
Proof.
  destruct (publish_touches_four_properties Fixture.B0 Fixture.E0 VNone
              Run.st0 Run.st1 (Ok tt)) as (_ & _ & _ & H).
  - vm_compute. reflexivity.
  - apply H; discriminate.
Defined.

(** The calls of one [publish] are a beginning of: one record creation,
    one transcode request, one Backburner job, in this order.  All three
    are there when it returns; when it raises, the line of the exception
    tells how many were made: none for an exception of the builder, one for
    lines 185 and 201, two for line 302, three for line 315. *)
Theorem publish_calls_in_order
    (B : Builtins) (E : Engine) (settings : pyval) (st st' : state)
    (r : result unit) :
  publish B E settings st = (r, st') ->
  exists tail,
    st_log st' = (st_log st ++ tail)%list /\
    publish_calls tail /\
    match r with
    | Ok _ => length tail = 3%nat
    | Err e =>
        (build_ver_data B (st_item st) = Err e /\ tail = []) \/
        ((line e = 185 \/ line e = 201)%nat /\ length tail = 1%nat) \/
        (line e = 302%nat /\ length tail = 2%nat) \/
        (line e = 315%nat /\ length tail = 3%nat)
    end.
Proof.
  intros H. unfold publish_calls. run_publish H;
    rewrite <- ?app_assoc; simpl;
    try (eexists; split; [reflexivity|]; split; [eauto 10|]; auto 10; fail).
  all: exists []; rewrite app_nil_r; split; [reflexivity|];
    split; [now left|]; left; auto.
Qed.

Lemma publish_calls_in_order_witness :
  exists tail,
    st_log Run.st1 = (st_log Run.st0 ++ tail)%list /\
    publish_calls tail /\ length tail = 3%nat.
Proof.
  apply (publish_calls_in_order Fixture.B0 Fixture.E0 VNone Run.st0 Run.st1
           (Ok tt)).
  vm_compute. reflexivity.
Defined.

(** ** The calls of a [publish] that returns *)

(** [generate_quicktime] when it returns, in full. *)
Lemma generate_quicktime_ok_full
    (B : Builtins) (E : Engine)
    (src dst display targets info deps : pyval) (st st' : state) (r : pyval) :
  generate_quicktime B E src dst display targets info deps st = (Ok r, st') ->
  exists d p job_id files id2,
    dst = VStr d /\
    let request :=
      {| t_src_path := src;
         t_dst_path := dst;
         t_extension := VStr (snd (posixpath.splitext d));
         t_display_name := display;
         t_job_context := "Create Shotgun Local Movie";
         t_preset_path := local_movies_preset_path E;
         t_asset_info := info;
         t_dependencies := deps;
         t_poster_frame := VNone |} in
    let update :=
      {| job_name :=
           VStr (fmt_s B display ++ " - Updating Shotgun Path to movie");
         job_description :=
           "Uploading Shotgun Path to movie to " ++ fmt_s B p;
         dependencies := job_id;
         instance := "backburner_hooks";
         method_name := "update_path_to_movie";
         args :=
           <["files_to_delete" := files]>
             (<["path" := p]> (<["targets" := targets]> ∅)) |} in
    transcode E (st_log st) request = inr (p, job_id, files) /\
    create_local_backburner_job E (st_log st ++ [Transcode request])%list
      update = inr id2 /\
    st_item st' = st_item st /\
    st_log st' = (st_log st ++ [Transcode request; BackburnerJob update])%list /\
    r = VDict
          (<["files_to_delete" := files]>
             (<["path" := p]>
                (<["target_entities" := targets]>
                   (<["dependencies" := job_id]>
                      (<["display_name" := display]> ∅))))).
Proof.
  unfold generate_quicktime. intros H.
  apply bind_inv in H as (d & s1 & H1 & H).
  apply lift_inv in H1 as [Hd ->].
  apply at_line_ok in Hd.
  destruct dst as [| | | |d'| |]; simpl in Hd; try discriminate Hd.
  inversion Hd; subst d'; clear Hd.
  apply bind_inv in H as ([[p job_id] files] & s2 & H2 & H).
  unfold call_transcode in H2. inversion H2 as [[Ht Hs2]]; clear H2.
  apply at_line_ok in Ht.
  apply bind_inv in H as (jid & s3 & H3 & H).
  unfold call_job in H3. inversion H3 as [[Hj Hs3]]; clear H3.
  apply at_line_ok in Hj.
  unfold mret, M_ret in H. inversion H; subst; clear H.
  exists d, p, job_id, files, jid.
  split; [reflexivity|]. cbv zeta.
  split; [exact Ht|]. split; [exact Hj|]. split; [reflexivity|].
  split; [|reflexivity].
  simpl. now rewrite <- app_assoc.
Qed.

(** A [publish] that returns, in full: what the builder gave, what the
    collaborators were asked and answered, and the state that is left. *)
Lemma publish_ok_full
    (B : Builtins) (E : Engine) (settings : pyval) (st st1 : state) :
  publish B E settings st = (Ok tt, st1) ->
  exists l version p dst job_id files id2,
    build_ver_data B (st_item st) = Ok l /\
    path l = VStr p /\
    let log1 := (st_log st ++ [SgCreate "Version" (ver_data l)])%list in
    let request :=
      {| t_src_path := file_path l;
         t_dst_path := VStr (quicktime_path_of p);
         t_extension := VStr (snd (posixpath.splitext (quicktime_path_of p)));
         t_display_name := VStr (quicktime_name_of p);
         t_job_context := "Create Shotgun Local Movie";
         t_preset_path := local_movies_preset_path E;
         t_asset_info := VDict (asset_info l);
         t_dependencies :=
           dict_get (properties (st_item st)) "backgroundJobId" VNone;
         t_poster_frame := VNone |} in
    let update :=
      {| job_name :=
           VStr (quicktime_name_of p ++ " - Updating Shotgun Path to movie");
         job_description :=
           "Uploading Shotgun Path to movie to " ++ fmt_s B dst;
         dependencies := job_id;
         instance := "backburner_hooks";
         method_name := "update_path_to_movie";
         args :=
           <["files_to_delete" := files]>
             (<["path" := dst]> (<["targets" := VList [version]]> ∅)) |} in
    let descriptor : gmap string pyval :=
      <["files_to_delete" := files]>
        (<["path" := dst]>
           (<["target_entities" := VList [version]]>
              (<["dependencies" := job_id]>
                 (<["display_name" := VStr (quicktime_name_of p)]> ∅)))) in
    sg_create E (st_log st) "Version" (ver_data l) = inr version /\
    transcode E log1 request = inr (dst, job_id, files) /\
    create_local_backburner_job E (log1 ++ [Transcode request])%list update
      = inr id2 /\
    st_log st1 = (log1 ++ [Transcode request; BackburnerJob update])%list /\
    name (st_item st1) = name (st_item st) /\
    description (st_item st1) = description (st_item st) /\
    context (st_item st1) = context (st_item st) /\
    properties (st_item st1)
    = <["quicktime_job" := VDict descriptor]>
        (<["quicktime_path" := VStr (quicktime_path_of p)]>
           (<["quicktime_name" := VStr (quicktime_name_of p)]>
              (<["Version" := version]> (properties (st_item st))))).
Proof.
  unfold publish. intros H.
  apply bind_inv in H as (it & s0 & H0 & H).
  unfold get_item in H0. inversion H0; subst it s0; clear H0.
  apply bind_inv in H as (l & s1 & H1 & H).
  apply lift_inv in H1 as [Hl ->].
  apply bind_inv in H as (version & s2 & H2 & H).
  unfold call_sg_create in H2. inversion H2 as [[Hv Hs2]]; clear H2.
  apply at_line_ok in Hv.
  apply bind_inv in H as ([] & s3 & H3 & H).
  unfold props_set in H3. inversion H3 as [Hs3]; clear H3.
  apply bind_inv in H as (deps & s4 & H4 & H).
  unfold props_get in H4. injection H4 as Hdeps Hs4.
  assert (Hdeps' :
    deps = dict_get (properties (st_item st)) "backgroundJobId" VNone).
  { rewrite <- Hdeps, <- Hs3, <- Hs2. unfold dict_get. simpl.
    now rewrite lookup_insert_ne by discriminate. }
  clear Hdeps. subst deps.
  apply bind_inv in H as (p & s5 & H5 & H).
  apply lift_inv in H5 as [Hp ->].
  apply at_line_ok in Hp.
  destruct (path l) as [| | | |ps| |] eqn:Hpath; simpl in Hp; try discriminate.
  inversion Hp; subst p; clear Hp.
  apply bind_inv in H as (qj & s6 & H6 & H).
  apply generate_quicktime_ok_full in H6
    as (d & dst & job_id & files & id2 & Hd & Ht & Hj & Hit & Hlog & ->).
  inversion Hd; subst d; clear Hd.
  apply bind_inv in H as ([] & s7 & H7 & H).
  unfold props_set in H7. inversion H7 as [Hs7]; clear H7.
  apply bind_inv in H as ([] & s8 & H8 & H).
  unfold props_set in H8. inversion H8 as [Hs8]; clear H8.
  unfold props_set in H. inversion H as [Hs9]; clear H.
  exists l, version, ps, dst, job_id, files, id2.
  split; [exact Hl|]. split; [exact Hpath|]. cbv zeta.
  split; [exact Hv|].
  subst s4 s3 s2. simpl in Ht, Hj, Hlog, Hit.
  split; [exact Ht|]. split; [exact Hj|].
  subst s8 s7. simpl. rewrite Hlog, Hit. simpl.
  repeat split; reflexivity.
Qed.

(** Job 1 waits for what the item has under ["backgroundJobId"], [None]
    when it has nothing there, and the transcoder is given the [assetInfo]
    of the item as it is, an empty dictionary when the item has none. *)
Theorem transcode_request_forwards
    (B : Builtins) (E : Engine) (settings : pyval) (st st1 : state) :
  publish B E settings st = (Ok tt, st1) ->
  exists c,
    In (Transcode c) (st_log st1) /\
    t_dependencies c
      = dict_get (properties (st_item st)) "backgroundJobId" VNone /\
    t_asset_info c
      = dict_get (properties (st_item st)) "assetInfo" (VDict ∅) /\
    t_preset_path c = local_movies_preset_path E /\
    t_poster_frame c = VNone.
Proof.
  intros H.
  apply publish_ok_full in H
    as (l & version & p & dst & job_id & files & id2 & Hb & _ & H).
  cbv zeta in H. destruct H as (_ & _ & _ & Hlog & _).
  apply build_ver_data_inv in Hb as (_ & _ & _ & Ha & _).
  eexists. split.
  { rewrite Hlog. apply in_or_app. right. now left. }
  cbn [t_dependencies t_asset_info t_preset_path t_poster_frame].
  now rewrite Ha.
Qed.

Lemma transcode_request_forwards_witness :
  exists c,
    In (Transcode c) (st_log Run.st1) /\
    t_dependencies c
      = dict_get (properties (st_item Run.st0)) "backgroundJobId" VNone /\
    t_asset_info c
      = dict_get (properties (st_item Run.st0)) "assetInfo" (VDict ∅) /\
    t_preset_path c = local_movies_preset_path Fixture.E0 /\
    t_poster_frame c = VNone.
Proof.
  apply (transcode_request_forwards Fixture.B0 Fixture.E0 VNone
           Run.st0 Run.st1).
  vm_compute. reflexivity.
Defined.

(** Job 2 is asked to put the path that the transcoder answered, not the
    one it was asked for, on the Version that [sg.create] has just
    returned, the same that is stored under ["Version"]; and it waits for
    job 1. *)
Theorem update_job_targets_new_version
    (B : Builtins) (E : Engine) (settings : pyval) (st st1 : state) :
  publish B E settings st = (Ok tt, st1) ->
  exists data version c dst job_id files j,
    st_log st1
    = (st_log st ++ [SgCreate "Version" data; Transcode c; BackburnerJob j])%list /\
    sg_create E (st_log st) "Version" data = inr version /\
    transcode E (st_log st ++ [SgCreate "Version" data])%list c
      = inr (dst, job_id, files) /\
    properties (st_item st1) !! "Version" = Some version /\
    args j !! "targets" = Some (VList [version]) /\
    args j !! "path" = Some dst /\
    args j !! "files_to_delete" = Some files /\
    dependencies j = job_id /\
    method_name j = "update_path_to_movie" /\
    instance j = "backburner_hooks".
Proof.
  intros H.
  apply publish_ok_full in H
    as (l & version & p & dst & job_id & files & id2 & Hb & _ & H).
  cbv zeta in H. destruct H as (Hv & Ht & _ & Hlog & _ & _ & _ & Hprops).
  eexists (ver_data l), version, _, dst, job_id, files, _.
  split; [rewrite Hlog, <- app_assoc; reflexivity|].
  split; [exact Hv|]. split; [exact Ht|].
  split; [rewrite Hprops; by simplify_map_eq|].
  cbn [args dependencies method_name instance].
  repeat split; by simplify_map_eq.
Qed.

Lemma update_job_targets_new_version_witness :
  exists data version c dst job_id files j,
    st_log MovingTranscoder.st1
    = (st_log Run.st0
         ++ [SgCreate "Version" data; Transcode c; BackburnerJob j])%list /\
    sg_create MovingTranscoder.E2 (st_log Run.st0) "Version" data
      = inr version /\
    transcode MovingTranscoder.E2
      (st_log Run.st0 ++ [SgCreate "Version" data])%list c
      = inr (dst, job_id, files) /\
    properties (st_item MovingTranscoder.st1) !! "Version" = Some version /\
    args j !! "targets" = Some (VList [version]) /\
    args j !! "path" = Some dst /\
    args j !! "files_to_delete" = Some files /\
    dependencies j = job_id /\
    method_name j = "update_path_to_movie" /\
    instance j = "backburner_hooks".
Proof.
  apply (update_job_targets_new_version Fixture.B0 MovingTranscoder.E2 VNone
           Run.st0 MovingTranscoder.st1).
  vm_compute. reflexivity.
Defined.

(** What [publish] stores on the item: the name and the path it asked the
    transcoder for.  The path that the transcoder answered is in the
    descriptor only, so ["quicktime_path"] and the descriptor's ["path"]
    differ when the transcoder writes elsewhere. *)
Theorem stored_path_is_the_requested_one
    (B : Builtins) (E : Engine) (settings : pyval) (st st1 : state) :
  publish B E settings st = (Ok tt, st1) ->
  exists c dst job_id files q history,
    In (Transcode c) (st_log st1) /\
    transcode E history c = inr (dst, job_id, files) /\
    properties (st_item st1) !! "quicktime_name" = Some (t_display_name c) /\
    properties (st_item st1) !! "quicktime_path" = Some (t_dst_path c) /\
    properties (st_item st1) !! "quicktime_job" = Some (VDict q) /\
    q !! "path" = Some dst /\
    q !! "display_name" = Some (t_display_name c).
Proof.
  intros H.
  apply publish_ok_full in H
    as (l & version & p & dst & job_id & files & id2 & Hb & _ & H).
  cbv zeta in H. destruct H as (_ & Ht & _ & Hlog & _ & _ & _ & Hprops).
  eexists _, dst, job_id, files, _, _.
  split; [rewrite Hlog; apply in_or_app; right; now left|].
  split; [exact Ht|].
  rewrite Hprops. cbn [t_display_name t_dst_path].
  repeat split; by simplify_map_eq.
Qed.

Lemma stored_path_is_the_requested_one_witness :
  exists c dst job_id files q history,
    In (Transcode c) (st_log MovingTranscoder.st1) /\
    transcode MovingTranscoder.E2 history c = inr (dst, job_id, files) /\
    properties (st_item MovingTranscoder.st1) !! "quicktime_name"
      = Some (t_display_name c) /\
    properties (st_item MovingTranscoder.st1) !! "quicktime_path"
      = Some (t_dst_path c) /\
    properties (st_item MovingTranscoder.st1) !! "quicktime_job"
      = Some (VDict q) /\
    q !! "path" = Some dst /\
    q !! "display_name" = Some (t_display_name c).
Proof.
  apply (stored_path_is_the_requested_one Fixture.B0 MovingTranscoder.E2
           VNone Run.st0 MovingTranscoder.st1).
  vm_compute. reflexivity.
Defined.

(** ** [finalize] *)

Ltac run_finalize H :=
  unfold finalize, _upload_quicktime_job, lift, call_job, props_get, mbind,
    M_bind, mret, M_ret, at_line, record in H;
  repeat (break_match H; simpl in H);
  inversion H; subst; clear H; simpl.

(** [finalize] never writes to the item, and it submits one job at most,
    the upload job; this whether it returns or raises. *)
Theorem finalize_reads_only
    (B : Builtins) (E : Engine) (settings : pyval) (st st' : state)
    (r : result pyval) :
  finalize B E settings st = (r, st') ->
  st_item st' = st_item st /\
  (st_log st' = st_log st \/
   exists j,
     st_log st' = (st_log st ++ [BackburnerJob j])%list /\
     method_name j = "copy_from_temp_and_upload_to_shotgun" /\
     args j !! "field_name" = Some (VStr "sg_uploaded_movie")).
Proof.
  intros H. run_finalize H.
  all: split; [reflexivity|].
  all: try (left; reflexivity).
  all: right; eexists; split; [reflexivity|]; split; [reflexivity|].
  all: by simplify_map_eq.
Qed.

Lemma finalize_reads_only_witness :
  st_item Run.st2 = st_item Run.st1 /\
  (st_log Run.st2 = st_log Run.st1 \/
   exists j,
     st_log Run.st2 = (st_log Run.st1 ++ [BackburnerJob j])%list /\
     method_name j = "copy_from_temp_and_upload_to_shotgun" /\
     args j !! "field_name" = Some (VStr "sg_uploaded_movie")).
Proof.
  apply (finalize_reads_only Fixture.B0 Fixture.E0 VNone Run.st1 Run.st2
           (Ok (VInt 103))).
  vm_compute. reflexivity.
Defined.

Lemma finalize_falsy
    (B : Builtins) (E : Engine) (settings : pyval) (st : state) :
  truthy (dict_get (properties (st_item st)) "quicktime_job" VNone) = false ->
  finalize B E settings st = (Ok VNone, st).
Proof.
  intros H. unfold finalize.
  rewrite (bind_ok _ _ st _ st) by reflexivity.
  now rewrite H.
Qed.

(** What sits under ["quicktime_job"] decides: a falsy value ([None], an
    empty dictionary, an empty string, zero) makes [finalize] return [None]
    and do nothing, as a missing key does; a truthy value that is no
    dictionary makes it raise [AttributeError] at line 235, before any
    job is submitted. *)
Theorem finalize_on_odd_descriptor
    (B : Builtins) (E : Engine) (settings : pyval) (st : state) (v : pyval) :
  properties (st_item st) !! "quicktime_job" = Some v ->
  (truthy v = false -> finalize B E settings st = (Ok VNone, st)) /\
  (truthy v = true -> as_dict v = inl AttributeError ->
   finalize B E settings st = (Err (Raise AttributeError 235), st)).
Proof.
  intros Hv.
  assert (Hg : dict_get (properties (st_item st)) "quicktime_job" VNone = v).
  { unfold dict_get. now rewrite Hv. }
  split.
  - intros Ht. apply finalize_falsy. now rewrite Hg.
  - intros Ht Hd. unfold finalize.
    rewrite (bind_ok _ _ st v st) by (unfold props_get; now rewrite Hg).
    rewrite Ht. unfold _upload_quicktime_job.
    apply bind_err. unfold lift. now rewrite Hd.
Qed.

Lemma finalize_on_odd_descriptor_witness :
  finalize Fixture.B0 Fixture.E0 VNone
    (Fixture.start OddDescriptor.empty_item)
  = (Ok VNone, Fixture.start OddDescriptor.empty_item) /\
  finalize Fixture.B0 Fixture.E0 VNone
    (Fixture.start OddDescriptor.text_item)
  = (Err (Raise AttributeError 235), Fixture.start OddDescriptor.text_item).
Proof.
  split.
  - apply (finalize_on_odd_descriptor Fixture.B0 Fixture.E0 VNone
             (Fixture.start OddDescriptor.empty_item) (VDict ∅) eq_refl).
    reflexivity.
  - apply (finalize_on_odd_descriptor Fixture.B0 Fixture.E0 VNone
             (Fixture.start OddDescriptor.text_item) (VStr "done") eq_refl);
      reflexivity.
Defined.

(** [_upload_quicktime_job] when it returns, in full. *)
Lemma upload_quicktime_job_ok_full
    (B : Builtins) (E : Engine) (q : gmap string pyval) (st st' : state)
    (r : pyval) :
  _upload_quicktime_job B E (VDict q) st = (Ok r, st') ->
  exists job_name,
    sanitize_backburner_job_name E (dict_get q "display_name" VNone)
      " - Move and Upload Flame Quicktime" = inr job_name /\
    let upload :=
      {| job_name := job_name;
         job_description :=
           "Move and Upload Flame Quicktime" ++ " for "
             ++ fmt_s B (dict_get q "display_name" VNone)
             ++ newline ++ " " ++ fmt_s B (dict_get q "path" VNone);
         dependencies := dict_get q "dependencies" VNone;
         instance := "backburner_hooks";
         method_name := "copy_from_temp_and_upload_to_shotgun";
         args :=
           <["files_to_delete" := dict_get q "files_to_delete" VNone]>
             (<["display_name" := dict_get q "display_name" VNone]>
                (<["field_name" := VStr "sg_uploaded_movie"]>
                   (<["path" := dict_get q "path" VNone]>
                      (<["targets" := dict_get q "target_entities" VNone]> ∅)))) |} in
    create_local_backburner_job E (st_log st) upload = inr r /\
    st_item st' = st_item st /\
    st_log st' = (st_log st ++ [BackburnerJob upload])%list.
Proof.
  unfold _upload_quicktime_job. intros H.
  apply bind_inv in H as (q' & s1 & H1 & H).
  apply lift_inv in H1 as [Hq ->]. simpl in Hq. inversion Hq; subst q'.
  apply bind_inv in H as (jn & s2 & H2 & H).
  apply lift_inv in H2 as [Hn ->]. apply at_line_ok in Hn.
  unfold call_job in H. inversion H as [[Hr Hs]]; clear H.
  apply at_line_ok in Hr.
  exists jn. split; [exact Hn|]. cbv zeta.
  split; [exact Hr|]. split; reflexivity.
Qed.

(** After a [publish] that returned, [finalize] asks for one job: to move
    the movie that the transcoder announced and to upload it, under
    [sg_uploaded_movie], to the Version that [publish] created; the job is
    given the temporary files of the transcoder to delete, and what
    [finalize] returns is the id of that job. *)
Theorem upload_job_after_publish
    (B : Builtins) (E : Engine) (settings : pyval) (st st1 st2 : state)
    (r : pyval) :
  publish B E settings st = (Ok tt, st1) ->
  finalize B E settings st1 = (Ok r, st2) ->
  exists version c dst job_id files j,
    properties (st_item st1) !! "Version" = Some version /\
    In (Transcode c) (st_log st1) /\
    (exists history, transcode E history c = inr (dst, job_id, files)) /\
    st_log st2 = (st_log st1 ++ [BackburnerJob j])%list /\
    create_local_backburner_job E (st_log st1) j = inr r /\
    args j !! "targets" = Some (VList [version]) /\
    args j !! "path" = Some dst /\
    args j !! "field_name" = Some (VStr "sg_uploaded_movie") /\
    args j !! "display_name" = Some (t_display_name c) /\
    args j !! "files_to_delete" = Some files /\
    st_item st2 = st_item st1.
Proof.
  intros Hp Hf.
  apply publish_ok_full in Hp
    as (l & version & p & dst & job_id & files & id2 & Hb & _ & H).
  cbv zeta in H. destruct H as (_ & Ht & _ & Hlog & _ & _ & _ & Hprops).
  unfold finalize in Hf.
  apply bind_inv in Hf as (qj & s & Hg & Hf).
  unfold props_get, dict_get in Hg. rewrite Hprops, lookup_insert_eq in Hg.
  inversion Hg; subst qj s; clear Hg.
  match type of Hf with
  | (if truthy (VDict ?q) then _ else _) _ = _ =>
      rewrite (truthy_dict_lookup q "files_to_delete" files) in Hf
        by apply lookup_insert_eq
  end.
  apply upload_quicktime_job_ok_full in Hf as (jn & _ & Hf).
  cbv zeta in Hf. destruct Hf as (Hr & Hit & Hlog2).
  eexists version, _, dst, job_id, files, _.
  split; [rewrite Hprops; by simplify_map_eq|].
  split; [rewrite Hlog; apply in_or_app; right; now left|].
  split; [eexists; exact Ht|].
  split; [exact Hlog2|]. split; [exact Hr|].
  cbn [args t_display_name]. unfold dict_get.
  clear Hb Ht Hprops Hlog Hlog2 Hr.
  repeat split; try exact Hit; by simplify_map_eq.
Qed.

Lemma upload_job_after_publish_witness :
  exists version c dst job_id files j,
    properties (st_item MovingTranscoder.st1) !! "Version" = Some version /\
    In (Transcode c) (st_log MovingTranscoder.st1) /\
    (exists history,
       transcode MovingTranscoder.E2 history c = inr (dst, job_id, files)) /\
    st_log MovingTranscoder.st2
    = (st_log MovingTranscoder.st1 ++ [BackburnerJob j])%list /\
    create_local_backburner_job MovingTranscoder.E2
      (st_log MovingTranscoder.st1) j = inr (VInt 103) /\
    args j !! "targets" = Some (VList [version]) /\
    args j !! "path" = Some dst /\
    args j !! "field_name" = Some (VStr "sg_uploaded_movie") /\
    args j !! "display_name" = Some (t_display_name c) /\
    args j !! "files_to_delete" = Some files /\
    st_item MovingTranscoder.st2 = st_item MovingTranscoder.st1.
Proof.
  apply (upload_job_after_publish Fixture.B0 MovingTranscoder.E2 VNone
           Run.st0 MovingTranscoder.st1 MovingTranscoder.st2 (VInt 103)).
  - vm_compute. reflexivity.
  - vm_compute. reflexivity.
Defined.

(** [finalize] does not take the descriptor off the item: called again, it
    submits the same job a second time. *)
Theorem finalize_twice_submits_twice
    (B : Builtins) (E : Engine) (settings : pyval) (st st' st'' : state)
    (q : gmap string pyval) (r r' : pyval) :
  properties (st_item st) !! "quicktime_job" = Some (VDict q) ->
  q ≠ ∅ ->
  finalize B E settings st = (Ok r, st') ->
  finalize B E settings st' = (Ok r', st'') ->
  exists j,
    st_log st'' = (st_log st ++ [BackburnerJob j; BackburnerJob j])%list /\
    properties (st_item st'') !! "quicktime_job" = Some (VDict q).
Proof.
  intros Hq Hne H1 H2.
  assert (Hstep : forall s r0 s',
    st_item s = st_item st ->
    finalize B E settings s = (Ok r0, s') ->
    exists jn,
      sanitize_backburner_job_name E (dict_get q "display_name" VNone)
        " - Move and Upload Flame Quicktime" = inr jn /\
      st_item s' = st_item st /\
      st_log s' =
        (st_log s ++
         [BackburnerJob
            {| job_name := jn;
               job_description :=
                 "Move and Upload Flame Quicktime" ++ " for "
                   ++ fmt_s B (dict_get q "display_name" VNone)
                   ++ newline ++ " " ++ fmt_s B (dict_get q "path" VNone);
               dependencies := dict_get q "dependencies" VNone;
               instance := "backburner_hooks";
               method_name := "copy_from_temp_and_upload_to_shotgun";
               args :=
                 <["files_to_delete" := dict_get q "files_to_delete" VNone]>
                   (<["display_name" := dict_get q "display_name" VNone]>
                      (<["field_name" := VStr "sg_uploaded_movie"]>
                         (<["path" := dict_get q "path" VNone]>
                            (<["targets" := dict_get q "target_entities" VNone]>
                               ∅)))) |}])%list).
  { intros s r0 s' Hs Hf. unfold finalize in Hf.
    apply bind_inv in Hf as (qj & s0 & Hg & Hf).
    unfold props_get, dict_get in Hg. rewrite Hs, Hq in Hg.
    inversion Hg; subst qj s0; clear Hg.
    rewrite (proj2 (truthy_dict_nonempty q) Hne) in Hf.
    apply upload_quicktime_job_ok_full in Hf as (jn & Hn & Hf).
    cbv zeta in Hf. destruct Hf as (_ & Hit & Hlog).
    exists jn. split; [exact Hn|]. split; [now rewrite Hit|exact Hlog]. }
  destruct (Hstep st r st' eq_refl H1) as (jn & Hn & Hit & Hlog).
  destruct (Hstep st' r' st'' Hit H2) as (jn' & Hn' & Hit' & Hlog').
  rewrite Hn in Hn'. inversion Hn'; subst jn'.
  eexists. split.
  - rewrite Hlog', Hlog, <- app_assoc. reflexivity.
  - now rewrite Hit'.
Qed.

Lemma finalize_twice_submits_twice_witness :
  exists j,
    st_log MovingTranscoder.st3
    = (st_log MovingTranscoder.st1 ++ [BackburnerJob j; BackburnerJob j])%list.
Proof.
  destruct (properties (st_item MovingTranscoder.st1) !! "quicktime_job")
    as [[| | | | | |q]|] eqn:Hq; try (vm_compute in Hq; discriminate Hq).
  destruct (finalize_twice_submits_twice Fixture.B0 MovingTranscoder.E2 VNone
              MovingTranscoder.st1 MovingTranscoder.st2 MovingTranscoder.st3
              q (VInt 103) (VInt 104) Hq) as (j & Hj & _).
  - intros ->. vm_compute in Hq. discriminate Hq.
  - vm_compute. reflexivity.
  - vm_compute. reflexivity.
  - now exists j.
Defined.

(** ** The extension given to the transcoder *)

Lemma length_append (a b : string) :
  String.length (a ++ b) = (String.length a + String.length b)%nat.
Proof.
  induction a as [|x a IH]; [reflexivity|].
  rewrite append_cons. simpl. now rewrite IH.
Qed.

Lemma contains_split_first_self d s :
  Str.contains d (Str.split_first d s) = false.
Proof.
  induction s as [|x s IH]; [reflexivity|]. simpl.
  destruct (Ascii.eqb x d) eqn:Hx; [reflexivity|].
  simpl. now rewrite Hx, IH.
Qed.

(** The path of the movie is a directory part, empty or ending with a
    separator, then the name of the movie. *)
Lemma quicktime_path_shape p :
  exists D,
    quicktime_path_of p = D ++ quicktime_name_of p /\
    (D = "" \/ Str.endswith posixpath.sep D = true).
Proof.
  destruct (split_cut (quicktime_path_of p)) as (D & t & Hq & HD & _ & Hs).
  rewrite quicktime_path_split in Hs. injection Hs as _ Ht.
  exists D. split; [now rewrite Ht|exact HD].
Qed.

(** [os.path.splitext] of the path of the movie: [.mov], unless the name
    of the movie is [.mov] alone, which has no extension. *)
Lemma splitext_quicktime_path p :
  snd (posixpath.splitext (quicktime_path_of p))
  = if String.eqb (Str.split_first "." (posixpath.basename p)) ""
    then "" else ".mov".
Proof.
  destruct (quicktime_path_shape p) as (D & Hq & HD).
  unfold quicktime_name_of in Hq.
  change (snd (posixpath.split p)) with (posixpath.basename p) in Hq.
  set (X := Str.split_first "." (posixpath.basename p)) in *.
  assert (HX : Str.contains "." X = false) by apply contains_split_first_self.
  assert (HXs : Str.contains "/" X = false).
  { unfold X, posixpath.basename.
    destruct (split_cut p) as (h & t & _ & _ & Ht & Hs).
    rewrite Hs. cbn [snd]. now apply contains_split_first. }
  rewrite Hq. unfold posixpath.splitext, posixpath.sep, posixpath.extsep.
  assert (Hsep : Str.rfind "/" (D ++ X ++ ".mov")
                 = Z.of_nat (String.length D) - 1).
  { destruct HD as [->|HD].
    - rewrite append_nil_l. rewrite rfind_none; [reflexivity|].
      now rewrite contains_app, HXs.
    - pose proof (rfind_app_end "/" D (X ++ ".mov")) as H.
      rewrite contains_app, HXs in H. specialize (H eq_refl HD). lia. }
  assert (Hdot : Str.rfind "." (D ++ X ++ ".mov")
                 = Z.of_nat (String.length D + String.length X)).
  { pose proof (rfind_app_end "." ((D ++ X) ++ ".") "mov" eq_refl
                  (endswith_snoc "." (D ++ X))) as H.
    rewrite !append_assoc in H. rewrite append_cons, append_nil_l in H.
    replace (String.length (D ++ X ++ "."))
      with (S (String.length D + String.length X)) in H.
    - lia.
    - rewrite !length_append. simpl. lia. }
  rewrite Hsep, Hdot.
  replace (Z.to_nat (Z.of_nat (String.length D + String.length X)
                     - (Z.of_nat (String.length D) - 1 + 1)))
    with (String.length X) by lia.
  replace (Z.to_nat (Z.of_nat (String.length D) - 1 + 1))
    with (String.length D) by lia.
  rewrite drop_app_length, take_app_length.
  assert (Hlt : (Z.of_nat (String.length D) - 1
                 <? Z.of_nat (String.length D + String.length X)) = true)
    by (apply Z.ltb_lt; lia).
  rewrite Hlt. cbn [andb].
  destruct (String.eqb_spec X "") as [HX0|HX0].
  - rewrite HX0. reflexivity.
  - rewrite (all_char_contains "." X HX0 HX). cbn [negb snd].
    replace (Z.to_nat (Z.of_nat (String.length D + String.length X)))
      with (String.length (D ++ X)) by (rewrite length_append; lia).
    rewrite <- append_assoc. apply drop_app_length.
Qed.

(** The extension that the transcoder is given is [.mov], except when the
    basename of [path] is empty or begins with a dot: the movie is then
    named [.mov], a name without extension, and the extension given is the
    empty string. *)
Theorem extension_of_the_movie
    (B : Builtins) (E : Engine) (settings : pyval) (st st1 : state) :
  publish B E settings st = (Ok tt, st1) ->
  exists p c,
    properties (st_item st) !! "path" = Some (VStr p) /\
    In (Transcode c) (st_log st1) /\
    t_extension c
    = VStr (if String.eqb (Str.split_first "." (posixpath.basename p)) ""
            then "" else ".mov") /\
    (Str.split_first "." (posixpath.basename p) = "" <->
     posixpath.basename p = "" \/
     Str.startswith "." (posixpath.basename p) = true).
Proof.
  intros H.
  apply publish_ok_full in H
    as (l & version & p & dst & job_id & files & id2 & Hb & Hpath & H).
  cbv zeta in H. destruct H as (_ & _ & _ & Hlog & _).
  apply build_ver_data_inv in Hb as (_ & _ & _ & _ & Hp & _).
  exists p. eexists.
  split.
  { rewrite Hpath in Hp. unfold dict_get in Hp.
    destruct (properties (st_item st) !! "path"); [congruence|discriminate]. }
  split; [rewrite Hlog; apply in_or_app; right; now left|].
  cbn [t_extension]. split; [now rewrite splitext_quicktime_path|].
  destruct (posixpath.basename p) as [|x b]; simpl.
  - split; auto.
  - destruct (Ascii.eqb x ".") eqn:Hx; split; auto.
    + discriminate.
    + intros [?|?]; discriminate.
Qed.

Lemma extension_of_the_movie_witness :
  exists c,
    In (Transcode c) (st_log HiddenItem.st1) /\
    t_display_name c = VStr ".mov" /\
    t_extension c = VStr "".
Proof.
  destruct (extension_of_the_movie Fixture.B0 Fixture.E0 VNone
              (Fixture.start HiddenItem.item) HiddenItem.st1)
    as (p & c & Hp & Hin & Hext & _).
  - vm_compute. reflexivity.
  - exists c. split; [exact Hin|].
    inversion Hp; subst p.
    split; [|exact Hext].
    clear Hext. vm_compute in Hin.
    destruct Hin as [Hin|[Hin|[Hin|[]]]];
      [discriminate Hin| |discriminate Hin].
    inversion Hin. reflexivity.
Defined.

(** ** When a collaborator refuses *)

(** When [sg.create] raises, [publish] raises at line 185 with the same
    kind; the failed creation is the only call made, and nothing is written
    on the item. *)
Theorem record_creation_refused
    (B : Builtins) (E : Engine) (settings : pyval) (st : state)
    (l : Locals) (k : exn_kind) :
  build_ver_data B (st_item st) = Ok l ->
  sg_create E (st_log st) "Version" (ver_data l) = inl k ->
  publish B E settings st
  = (Err (Raise k 185),
     {| st_item := st_item st;
        st_log := (st_log st ++ [SgCreate "Version" (ver_data l)])%list |}).
Proof.
  intros Hb Hc. unfold publish.
  rewrite (bind_ok _ _ st (st_item st) st) by reflexivity.
  rewrite (bind_ok _ _ st l st) by (unfold lift; now rewrite Hb).
  apply bind_err. unfold call_sg_create. now rewrite Hc.
Qed.

Lemma record_creation_refused_witness :
  exists l,
    build_ver_data Fixture.B0 Run.item0 = Ok l /\
    publish Fixture.B0 FailingStore.E3 VNone Run.st0
    = (Err (Raise CollaboratorError 185),
       {| st_item := Run.item0;
          st_log := [SgCreate "Version" (ver_data l)] |}).
Proof.
  eexists. split; [reflexivity|].
  apply (record_creation_refused Fixture.B0 FailingStore.E3 VNone Run.st0).
  - reflexivity.
  - reflexivity.
Defined.

Lemma path_to_frames_kept (B : Builtins) (it : Item) (l : Locals) :
  build_ver_data B it = Ok l ->
  ver_data l !! "sg_path_to_frames"
  = Some (dict_get (properties it) "path" VNone).
Proof.
  intros Hb.
  apply build_ver_data_inv in Hb
    as (vd1 & vd2 & vd3 & _ & Hp & _ & H1 & H2 & H3 & H4).
  rewrite Hp in H1.
  rewrite (set_frames_other B _ _ _ _ H4) by discriminate.
  rewrite (set_frame_range_other _ _ _ _ H3) by discriminate.
  rewrite (set_aspect_ratio_other B _ _ _ _ H2) by discriminate.
  rewrite (set_frame_rate_other B _ _ _ _ H1) by discriminate.
  unfold init_ver_data.
  rewrite lookup_insert_ne by discriminate. apply lookup_insert_eq.
Qed.

(** An item whose ["path"] is no string (it is missing, say) and whose
    metadata can be built, from its ["file_path"]: the Version is created,
    with [None] or that value as its path to frames, and stored on the
    item; then line 201 raises [TypeError], and no job is submitted. *)
Theorem version_created_before_path_is_checked
    (B : Builtins) (E : Engine) (settings : pyval) (st : state)
    (l : Locals) (version : pyval) :
  as_str (dict_get (properties (st_item st)) "path" VNone) = inl TypeError ->
  build_ver_data B (st_item st) = Ok l ->
  sg_create E (st_log st) "Version" (ver_data l) = inr version ->
  exists st1,
    publish B E settings st = (Err (Raise TypeError 201), st1) /\
    st_log st1 = (st_log st ++ [SgCreate "Version" (ver_data l)])%list /\
    properties (st_item st1)
    = <["Version" := version]> (properties (st_item st)) /\
    ver_data l !! "sg_path_to_frames"
    = Some (dict_get (properties (st_item st)) "path" VNone).
Proof.
  intros Hs Hb Hc.
  pose proof Hb as Hb0.
  apply build_ver_data_inv in Hb0 as (_ & _ & _ & _ & Hp & _).
  eexists. split; [|split; [|split]].
  - unfold publish.
    rewrite (bind_ok _ _ st (st_item st) st) by reflexivity.
    rewrite (bind_ok _ _ st l st) by (unfold lift; now rewrite Hb).
    rewrite (bind_ok _ _ st version _)
      by (unfold call_sg_create; now rewrite Hc).
    rewrite (bind_ok _ _ _ tt _) by reflexivity.
    rewrite (bind_ok _ _ _ _ _) by reflexivity.
    apply bind_err. unfold lift. rewrite Hp, Hs. reflexivity.
  - reflexivity.
  - reflexivity.
  - now apply (path_to_frames_kept B).
Qed.

Lemma version_created_before_path_is_checked_witness :
  exists l st1,
    build_ver_data Fixture.B0 FileOnlyItem.item = Ok l /\
    publish Fixture.B0 Fixture.E0 VNone (Fixture.start FileOnlyItem.item)
    = (Err (Raise TypeError 201), st1) /\
    st_log st1 = [SgCreate "Version" (ver_data l)] /\
    ver_data l !! "sg_path_to_frames" = Some VNone.
Proof.
  eexists.
  match goal with
  | |- exists st1, build_ver_data _ _ = Ok ?l /\ _ =>
      destruct (version_created_before_path_is_checked Fixture.B0 Fixture.E0
                  VNone (Fixture.start FileOnlyItem.item) l
                  (VDict (<["id" := Fixture.next_id []]>
                            (<["type" := VStr "Version"]> ∅)))
                  eq_refl eq_refl eq_refl)
        as (st1 & Hpub & Hlog & _ & Hpath)
  end.
  exists st1. split; [reflexivity|]. split; [exact Hpub|].
  split; [exact Hlog|exact Hpath].
Defined.

(** A [publish] that raised has written ["Version"] on the item at most,
    never a descriptor: on an item that had none, the [finalize] that
    follows returns [None] and submits nothing. *)
Theorem failed_publish_then_finalize
    (B : Builtins) (E : Engine) (settings : pyval) (st st1 : state) (e : exn) :
  publish B E settings st = (Err e, st1) ->
  properties (st_item st) !! "quicktime_job" = None ->
  (properties (st_item st1) = properties (st_item st) \/
   exists version,
     properties (st_item st1)
     = <["Version" := version]> (properties (st_item st))) /\
  finalize B E settings st1 = (Ok VNone, st1).
Proof.
  intros H Hq.
  assert (Hprops :
    properties (st_item st1) = properties (st_item st) \/
    exists version,
      properties (st_item st1)
      = <["Version" := version]> (properties (st_item st))).
  { run_publish H; auto; right; eexists; reflexivity. }
  split; [exact Hprops|].
  apply finalize_falsy. unfold dict_get.
  destruct Hprops as [->|[v ->]].
  - now rewrite Hq.
  - rewrite lookup_insert_ne by discriminate. now rewrite Hq.
Qed.

Lemma failed_publish_then_finalize_witness :
  publish Fixture.B0 FailingTranscoder.E1 VNone Run.st0
  = (Err (Raise CollaboratorError 302), FailingTranscoder.st1) /\
  finalize Fixture.B0 FailingTranscoder.E1 VNone FailingTranscoder.st1
  = (Ok VNone, FailingTranscoder.st1).
Proof.
  assert (H : publish Fixture.B0 FailingTranscoder.E1 VNone Run.st0
              = (Err (Raise CollaboratorError 302), FailingTranscoder.st1)).
  { vm_compute. reflexivity. }
  split; [exact H|].
  apply (failed_publish_then_finalize Fixture.B0 FailingTranscoder.E1 VNone
           Run.st0 FailingTranscoder.st1 _ H).
  reflexivity.
Defined.

(** ** [publish] a second time *)

(** The builder looks at the name, the description and the context of the
    item and at three of its properties, nothing else. *)
Lemma build_ver_data_ext (B : Builtins) (it it' : Item) :
  name it' = name it -> description it' = description it ->
  context it' = context it ->
  properties it' !! "path" = properties it !! "path" ->
  properties it' !! "assetInfo" = properties it !! "assetInfo" ->
  properties it' !! "file_path" = properties it !! "file_path" ->
  build_ver_data B it' = build_ver_data B it.
Proof.
  intros Hn Hd Hc Hp Ha Hf.
  unfold build_ver_data, init_ver_data, dict_get.
  now rewrite Hn, Hd, Hc, Hp, Ha, Hf.
Qed.

(** [publish] is not idempotent: run again on the item it has just
    published, it creates a second Version from the same metadata and asks
    for the same movie again, from the same source to the same
    destination. *)
Theorem publish_twice_duplicates
    (B : Builtins) (E : Engine) (settings : pyval) (st st1 st2 : state) :
  publish B E settings st = (Ok tt, st1) ->
  publish B E settings st1 = (Ok tt, st2) ->
  exists data c1 j1 c2 j2,
    st_log st2
    = (st_log st
         ++ [SgCreate "Version" data; Transcode c1; BackburnerJob j1;
             SgCreate "Version" data; Transcode c2; BackburnerJob j2])%list /\
    t_src_path c2 = t_src_path c1 /\
    t_dst_path c2 = t_dst_path c1 /\
    t_display_name c2 = t_display_name c1 /\
    t_dependencies c2 = t_dependencies c1.
Proof.
  intros H1 H2.
  apply publish_ok_full in H1
    as (l & v1 & p & dst & job_id & files & id2 & Hb & Hpath & H1).
  cbv zeta in H1.
  destruct H1 as (_ & _ & _ & Hlog & Hn & Hd & Hc & Hprops).
  apply publish_ok_full in H2
    as (l' & v1' & p' & dst' & job_id' & files' & id2' & Hb' & Hpath' & H2).
  cbv zeta in H2. destruct H2 as (_ & _ & _ & Hlog' & _).
  assert (Hsame : build_ver_data B (st_item st1) = build_ver_data B (st_item st)).
  { apply build_ver_data_ext; try assumption;
      rewrite Hprops; now rewrite !lookup_insert_ne by discriminate. }
  rewrite Hsame, Hb in Hb'. inversion Hb'; subst l'; clear Hb'.
  rewrite Hpath in Hpath'. inversion Hpath'; subst p'; clear Hpath'.
  eexists (ver_data l), _, _, _, _.
  split.
  { rewrite Hlog', Hlog, <- !app_assoc. reflexivity. }
  cbn [t_src_path t_dst_path t_display_name t_dependencies].
  repeat split.
  unfold dict_get. rewrite Hprops.
  now rewrite !lookup_insert_ne by discriminate.
Qed.

Lemma publish_twice_duplicates_witness :
  exists data c1 j1 c2 j2,
    st_log Republish.st2
    = (st_log Run.st0
         ++ [SgCreate "Version" data; Transcode c1; BackburnerJob j1;
             SgCreate "Version" data; Transcode c2; BackburnerJob j2])%list /\
    t_src_path c2 = t_src_path c1 /\
    t_dst_path c2 = t_dst_path c1 /\
    t_display_name c2 = t_display_name c1 /\
    t_dependencies c2 = t_dependencies c1.
Proof.
  apply (publish_twice_duplicates Fixture.B0 Fixture.E0 VNone
           Run.st0 Run.st1 Republish.st2).
  - vm_compute. reflexivity.
  - vm_compute. reflexivity.
Defined.

(** ** The claims that the aspect test breaks *)

(** C5. The assetInfo [{sourceIn: 1001, sourceOut: 1051}] does not give a
    VersionData with the frames 1001 to 1050 and the count 50.  The frames
    step of lines 179 to 182 would store them, on any [ver_data]; but the
    mapping is not empty, so line 167 converts its missing [aspectRatio],
    [None], to a float before that step is reached.  The builder raises
    [TypeError], and [publish] ends there, before any call to a
    collaborator. *)
Theorem source_range_only_asset_info_raises
    (B : Builtins) (E : Engine) (settings : pyval) (st : state) :
  properties (st_item st) !! "assetInfo"
    = Some (VDict FramesOnlyItem.asset) ->
  (forall vd,
     set_frames B FramesOnlyItem.asset vd
     = Ok (<["frame_count" := VInt 50]>
             (<["sg_last_frame" := VInt 1050]>
                (<["sg_first_frame" := VInt 1001]> vd)))) /\
  build_ver_data B (st_item st) = Err (Raise TypeError 167) /\
  publish B E settings st = (Err (Raise TypeError 167), st).
Proof.
  intros H.
  assert (Hb : build_ver_data B (st_item st) = Err (Raise TypeError 167)).
  { eapply build_ver_data_aspect_err.
    - unfold dict_get. now rewrite H.
    - apply set_frame_rate_skip. reflexivity.
    - apply set_aspect_ratio_missing.
      + intros He. apply (f_equal (fun m => m !! "sourceIn")) in He.
        discriminate He.
      + reflexivity. }
  split.
  - intros vd.
    apply (set_frames_ints B FramesOnlyItem.asset vd 1001 1051); reflexivity.
  - split; [exact Hb|]. now apply publish_builder_err.
Qed.

Lemma source_range_only_asset_info_raises_witness :
  build_ver_data Fixture.B0 FramesOnlyItem.item = Err (Raise TypeError 167) /\
  publish Fixture.B0 Fixture.E0 VNone (Fixture.start FramesOnlyItem.item)
  = (Err (Raise TypeError 167), Fixture.start FramesOnlyItem.item).
Proof.
  destruct (source_range_only_asset_info_raises Fixture.B0 Fixture.E0 VNone
              (Fixture.start FramesOnlyItem.item) eq_refl) as (_ & Hb & Hp).
  split; [exact Hb|exact Hp].
Defined.

(** C9. The assetInfo [{fps: 24.0}], whose [fps] is present and truthy,
    does not give a VersionData with the frame rate 24.0.  The rate step of
    lines 161 to 163 stores [float(fps)], on any [ver_data]; but the mapping
    is not empty, so line 167 converts its missing [aspectRatio], [None], to
    a float.  The builder raises [TypeError], what the rate step stored is
    lost with it, and [publish] ends there, before any call to a
    collaborator. *)
Theorem rate_stored_then_lost
    (B : Builtins) (E : Engine) (settings : pyval) (st : state) :
  properties (st_item st) !! "assetInfo" = Some (VDict RateOnlyItem.asset) ->
  truthy (VFloat Fixture.f24) = true /\
  (forall vd,
     set_frame_rate B RateOnlyItem.asset vd
     = Ok (<["sg_uploaded_movie_frame_rate" := VFloat Fixture.f24]> vd)) /\
  build_ver_data B (st_item st) = Err (Raise TypeError 167) /\
  publish B E settings st = (Err (Raise TypeError 167), st).
Proof.
  intros H.
  split; [reflexivity|]. split.
  - intros vd.
    apply (set_frame_rate_set B RateOnlyItem.asset vd (VFloat Fixture.f24));
      reflexivity.
  - assert (Hb : build_ver_data B (st_item st) = Err (Raise TypeError 167)).
    { now apply (build_ver_data_fps_only B _ (VFloat Fixture.f24) Fixture.f24 H). }
    split; [exact Hb|]. now apply publish_builder_err.
Qed.

Lemma rate_stored_then_lost_witness :
  build_ver_data Fixture.B0 RateOnlyItem.item = Err (Raise TypeError 167) /\
  publish Fixture.B0 Fixture.E0 VNone (Fixture.start RateOnlyItem.item)
  = (Err (Raise TypeError 167), Fixture.start RateOnlyItem.item).
Proof.
  destruct (rate_stored_then_lost Fixture.B0 Fixture.E0 VNone
              (Fixture.start RateOnlyItem.item) eq_refl) as (_ & _ & Hb & Hp).
  split; [exact Hb|exact Hp].
Defined.

(** C10, as the specification states it, fails: an item without a path
    whose [assetInfo] is [None] ends with the [AttributeError] of line 161,
    and one whose [fps] is a list ends with the [TypeError] of line 163;
    neither is the [TypeError] of the frame-range search at line 175. *)
Lemma no_path_error_is_not_always_the_frame_range_one :
  publish Fixture.B0 Fixture.E0 VNone (Fixture.start NoPathOddItem.none_item)
  = (Err (Raise AttributeError 161), Fixture.start NoPathOddItem.none_item) /\
  publish Fixture.B0 Fixture.E0 VNone (Fixture.start NoPathOddItem.list_item)
  = (Err (Raise TypeError 163), Fixture.start NoPathOddItem.list_item) /\
  properties NoPathOddItem.none_item !! "path" = None /\
  properties NoPathOddItem.none_item !! "file_path" = None /\
  ~ raises_type_error_at_frame_range Fixture.B0 Fixture.E0 VNone
      (Fixture.start NoPathOddItem.none_item) /\
  ~ raises_type_error_at_frame_range Fixture.B0 Fixture.E0 VNone
      (Fixture.start NoPathOddItem.list_item).
Proof.
  assert (H1 : publish Fixture.B0 Fixture.E0 VNone
                 (Fixture.start NoPathOddItem.none_item)
               = (Err (Raise AttributeError 161),
                  Fixture.start NoPathOddItem.none_item)).
  { apply publish_builder_err. reflexivity. }
  assert (H2 : publish Fixture.B0 Fixture.E0 VNone
                 (Fixture.start NoPathOddItem.list_item)
               = (Err (Raise TypeError 163),
                  Fixture.start NoPathOddItem.list_item)).
  { apply publish_builder_err. reflexivity. }
  split; [exact H1|]. split; [exact H2|].
  split; [reflexivity|]. split; [reflexivity|].
  split.
  - intros [st' H]. rewrite H1 in H. discriminate H.
  - intros [st' H]. rewrite H2 in H. discriminate H.
Qed.
